(** * WebTest: a link library served over HTTP

    A shallow embedding of [app.py], the Flask service that keeps a list of
    links in [library_data.json], hands out bearer tokens to the admin and
    keeps a bounded in-memory log.

    Python values are the values [json.load] and [request.json] produce.
    The module globals, the two files, the console, the clock and the random
    source form one [world]; every Python function is a computation in a
    state-and-exception monad over that world. *)

From Stdlib Require Import ZArith String List SpecFloat Lia.
From stdpp Require Import gmap strings list fin_maps.

Set Warnings "-register-all".

Open Scope string_scope.
Open Scope Z_scope.

(** [++] joins lists; strings are joined with [+:+]. *)
Disable Notation "_ ++ _" : string_scope.

(** * Python values *)

Module Py.

(** What [json.load] returns: [None], [bool], [int], [float], [str], [list]
    and [dict] with [str] keys.  A [str] is a [string]; a Python [int] is
    unbounded, so [Z]; a [float] is IEEE binary64, kept as the sign, mantissa
    and exponent of [spec_float]. *)
Inductive json : Type :=
| JNull
| JBool (b : bool)
| JInt (n : Z)
| JFloat (f : spec_float)
| JStr (s : string)
| JList (l : list json)
| JObj (m : gmap string json).

(** The exceptions the program can meet. [BadRequest] is what Werkzeug raises
    when [request.json] finds no JSON body. *)
Inductive exn : Type :=
| AttributeError
| TypeError
| KeyError
| IndexError
| JSONDecodeError
| FileNotFoundError
| BadRequest
| UnicodeDecodeError
| RecursionError
| ValueError.

(** [bool(v)]: the truth value [if], [and] and [not] test. *)
Definition truthy (v : json) : bool :=
  match v with
  | JNull => false
  | JBool b => b
  | JInt n => negb (n =? 0)
  | JFloat (S754_zero _) => false
  | JFloat _ => true
  | JStr s => negb (bool_decide (s = ""))
  | JList l => negb (bool_decide (l = []))
  | JObj m => negb (bool_decide (size m = 0%nat))
  end.

(** [int == float] compares the exact mathematical values. *)
Definition Z_eq_float (n : Z) (f : spec_float) : bool :=
  match f with
  | S754_zero _ => n =? 0
  | S754_finite s m e =>
      let sg := if s then -1 else 1 in
      if 0 <=? e then n =? sg * (Z.pos m * 2 ^ e)
      else (Z.pos m mod 2 ^ (- e) =? 0) && (n =? sg * (Z.pos m / 2 ^ (- e)))
  | S754_infinity _ | S754_nan => false
  end.

Definition Z_of_bool (b : bool) : Z := if b then 1 else 0.

(** [a == b].  [bool] is a subclass of [int], so [True == 1 == 1.0]; a [str]
    equals only the same [str]; lists compare element by element and dicts
    key by key. *)
Fixpoint py_eq (a b : json) {struct a} : bool :=
  match a, b with
  | JNull, JNull => true
  | JBool x, JBool y => Z_of_bool x =? Z_of_bool y
  | JBool x, JInt y => Z_of_bool x =? y
  | JBool x, JFloat y => Z_eq_float (Z_of_bool x) y
  | JInt x, JBool y => x =? Z_of_bool y
  | JInt x, JInt y => x =? y
  | JInt x, JFloat y => Z_eq_float x y
  | JFloat x, JBool y => Z_eq_float (Z_of_bool y) x
  | JFloat x, JInt y => Z_eq_float y x
  | JFloat x, JFloat y => SFeqb x y
  | JStr s, JStr t => bool_decide (s = t)
  | JList l, JList l' =>
      (fix go (l l' : list json) {struct l} : bool :=
         match l, l' with
         | [], [] => true
         | x :: r, y :: r' => py_eq x y && go r r'
         | _, _ => false
         end) l l'
  | JObj m, JObj m' =>
      bool_decide (size m = size m') &&
      map_fold (fun k v acc =>
                  acc && match m' !! k with
                         | Some v' => py_eq v v'
                         | None => false
                         end) true m
  | _, _ => false
  end.

(** [s.startswith(p)]. *)
Definition startswith (p s : string) : bool := String.prefix p s.

(** [s.split(sep)] for a non-empty [sep]: the pieces between the
    non-overlapping occurrences of [sep], scanning from the left.  [skip]
    counts the characters of a separator still to be passed over and [cur]
    holds the piece being read. *)
Fixpoint split_from (sep s : string) (skip : nat) (cur : string) : list string :=
  match s with
  | EmptyString => [cur]
  | String c s' =>
      match skip with
      | S k => split_from sep s' k cur
      | O =>
          if String.prefix sep s
          then cur :: split_from sep s' (String.length sep - 1) ""
          else split_from sep s' 0 (cur +:+ String c "")
      end
  end.

Definition split (sep s : string) : list string := split_from sep s 0 "".

(** [needle in s] for two [str]. *)
Fixpoint contains (needle s : string) : bool :=
  String.prefix needle s ||
  match s with
  | EmptyString => false
  | String _ s' => contains needle s'
  end.

End Py.
Import Py.

(** * The world the program runs in *)

(** The content of a file, seen through [open] and [json.load].  Text that
    parses is [JsonText], with the value it parses to; [json.dump v] writes
    [JsonText v], the text it produces parses back to [v].  The other
    contents are the ways [json.load] fails:
    - [Unparsable]: text that is not JSON, [JSONDecodeError];
    - [Undecodable]: bytes that are not text in the encoding [open] uses,
      so [f.read()] raises [UnicodeDecodeError];
    - [TooDeep]: brackets nested beyond the recursion limit, [RecursionError];
    - [HugeInteger]: an integer of more digits than [int] converts (4300),
      [ValueError].
    Opening and writing a file succeed: faults of the operating system are
    not modelled. *)
Inductive file_content : Type :=
| Unparsable
| JsonText (v : json)
| Undecodable
| TooDeep
| HugeInteger.

(** Instants are microseconds on the clock [datetime.now()] reads. *)
Abbreviation time := Z (only parsing).

Record world : Type := World {
  (** module globals *)
  active_tokens : gmap string time;
  server_logs : list string;
  library_links : json;
  (** the working directory: file name to content *)
  files : gmap string file_content;
  (** what [print] wrote, oldest line first *)
  console : list string;
  (** the n-th call of [datetime.now()] returns [clock n] *)
  clock : nat -> time;
  clock_reads : nat;
  (** the n-th call of [secrets.token_urlsafe] returns [entropy n] *)
  entropy : nat -> string;
  entropy_reads : nat
}.

Definition set_active_tokens (f : gmap string time -> gmap string time) (w : world) : world :=
  World (f (active_tokens w)) (server_logs w) (library_links w) (files w)
        (console w) (clock w) (clock_reads w) (entropy w) (entropy_reads w).

Definition set_server_logs (f : list string -> list string) (w : world) : world :=
  World (active_tokens w) (f (server_logs w)) (library_links w) (files w)
        (console w) (clock w) (clock_reads w) (entropy w) (entropy_reads w).

Definition set_library_links (f : json -> json) (w : world) : world :=
  World (active_tokens w) (server_logs w) (f (library_links w)) (files w)
        (console w) (clock w) (clock_reads w) (entropy w) (entropy_reads w).

Definition set_files (f : gmap string file_content -> gmap string file_content) (w : world) : world :=
  World (active_tokens w) (server_logs w) (library_links w) (f (files w))
        (console w) (clock w) (clock_reads w) (entropy w) (entropy_reads w).

Definition set_console (f : list string -> list string) (w : world) : world :=
  World (active_tokens w) (server_logs w) (library_links w) (files w)
        (f (console w)) (clock w) (clock_reads w) (entropy w) (entropy_reads w).

Definition tick_clock (w : world) : world :=
  World (active_tokens w) (server_logs w) (library_links w) (files w)
        (console w) (clock w) (S (clock_reads w)) (entropy w) (entropy_reads w).

Definition tick_entropy (w : world) : world :=
  World (active_tokens w) (server_logs w) (library_links w) (files w)
        (console w) (clock w) (clock_reads w) (entropy w) (S (entropy_reads w)).

(** ** The monad: a world in, a value or an exception and a world out *)

Inductive result (A : Type) : Type :=
| Ok (a : A)
| Raise (e : exn).
Arguments Ok {A} a.
Arguments Raise {A} e.

Definition M (A : Type) : Type := world -> result A * world.

#[global] Instance M_ret : MRet M := fun A a w => (Ok a, w).

#[global] Instance M_bind : MBind M := fun A B f m w =>
  match m w with
  | (Ok a, w') => f a w'
  | (Raise e, w') => (Raise e, w')
  end.

Definition raise {A : Type} (e : exn) : M A := fun w => (Raise e, w).

(** [try: m  except e: h e]; a handler that does not want [e] raises it
    again. *)
Definition try_except {A : Type} (m : M A) (h : exn -> M A) : M A := fun w =>
  match m w with
  | (Ok a, w') => (Ok a, w')
  | (Raise e, w') => h e w'
  end.

Definition gets {A : Type} (f : world -> A) : M A := fun w => (Ok (f w), w).

Definition modify (f : world -> world) : M unit := fun w => (Ok tt, f w).

(** ** The library calls the program makes *)

(** [datetime.now()]. *)
Definition datetime_now : M time := fun w =>
  (Ok (clock w (clock_reads w)), tick_clock w).

(** [secrets.token_urlsafe(32)]. *)
Definition token_urlsafe : M string := fun w =>
  (Ok (entropy w (entropy_reads w)), tick_entropy w).

(** [timedelta(hours=h)], in microseconds. *)
Definition timedelta_hours (h : Z) : Z := h * 3600000000.

(** [print(line)]. *)
Definition print (line : string) : M unit :=
  modify (set_console (fun out => out ++ [line])).

(** [os.path.exists(path)]. *)
Definition os_path_exists (path : string) : M bool :=
  gets (fun w => bool_decide (is_Some (files w !! path))).

(** [with open(path, 'r') as f: json.load(f)]. *)
Definition json_load (path : string) : M json :=
  fs ← gets files;
  match fs !! path with
  | Some (JsonText v) => mret v
  | Some Unparsable => raise JSONDecodeError
  | Some Undecodable => raise UnicodeDecodeError
  | Some TooDeep => raise RecursionError
  | Some HugeInteger => raise ValueError
  | None => raise FileNotFoundError
  end.

(** [with open(path, 'w') as f: json.dump(v, f, indent=2)]: the file is
    created or overwritten whole. *)
Definition json_dump (v : json) (path : string) : M unit :=
  modify (set_files (fun fs => <[path := JsonText v]> fs)).

(** ** Operations on Python values *)

(** A Python index into a sequence of length [n]: negative indices count
    from the end; [None] when out of range. *)
Definition norm_index (i : Z) (n : nat) : option nat :=
  let j := if i <? 0 then i + Z.of_nat n else i in
  if (0 <=? j) && (j <? Z.of_nat n) then Some (Z.to_nat j) else None.

(** [d.get(k, dflt)]: only a [dict] has [get]. *)
Definition dict_get (d : json) (k : string) (dflt : json) : M json :=
  match d with
  | JObj m => mret (default dflt (m !! k))
  | _ => raise AttributeError
  end.

(** [len(x)]. *)
Definition py_len (x : json) : M Z :=
  match x with
  | JList l => mret (Z.of_nat (length l))
  | JObj m => mret (Z.of_nat (size m))
  | JStr s => mret (Z.of_nat (String.length s))
  | _ => raise TypeError
  end.

(** [x.append(v)], giving the list after the call: only a [list] has
    [append]. *)
Definition list_append (x v : json) : M json :=
  match x with
  | JList l => mret (JList (l ++ [v]))
  | _ => raise AttributeError
  end.

(** [x.pop(i)], giving the element removed and the container after the call.
    A [dict] from [json.load] has [str] keys only, so popping an [int] key
    raises [KeyError]. *)
Definition py_pop (x : json) (i : Z) : M (json * json) :=
  match x with
  | JList l =>
      match norm_index i (length l) with
      | Some n =>
          match l !! n with
          | Some v => mret (v, JList (delete n l))
          | None => raise IndexError
          end
      | None => raise IndexError
      end
  | JObj _ => raise KeyError
  | _ => raise AttributeError
  end.

(** [x[i]] for an [int] [i]. *)
Definition getitem_int (x : json) (i : Z) : M json :=
  match x with
  | JList l =>
      match norm_index i (length l) with
      | Some n =>
          match l !! n with
          | Some v => mret v
          | None => raise IndexError
          end
      | None => raise IndexError
      end
  | JStr s =>
      match norm_index i (String.length s) with
      | Some n =>
          match String.get n s with
          | Some c => mret (JStr (String c ""))
          | None => raise IndexError
          end
      | None => raise IndexError
      end
  | JObj _ => raise KeyError
  | _ => raise TypeError
  end.

(** [x[k]] for a [str] [k]. *)
Definition getitem_str (x : json) (k : string) : M json :=
  match x with
  | JObj m =>
      match m !! k with
      | Some v => mret v
      | None => raise KeyError
      end
  | _ => raise TypeError
  end.

(** [x[k] = v] for a [str] [k], giving [x] after the assignment. *)
Definition setitem_str (x : json) (k : string) (v : json) : M json :=
  match x with
  | JObj m => mret (JObj (<[k := v]> m))
  | _ => raise TypeError
  end.

(** [k not in x] for a [str] [k]: key test on a [dict], element test on a
    [list], substring test on a [str]. *)
Definition not_in (k : string) (x : json) : M bool :=
  match x with
  | JObj m => mret (bool_decide (m !! k = None))
  | JList l => mret (negb (existsb (py_eq (JStr k)) l))
  | JStr s => mret (negb (contains k s))
  | _ => raise TypeError
  end.

(** What [for link in x] runs over: the elements of a [list], the keys of a
    [dict], the characters of a [str]. *)
Definition py_iter (x : json) : M (list json) :=
  match x with
  | JList l => mret l
  | JObj m => mret (JStr <$> (map_to_list m).*1)
  | JStr s => mret ((fun c => JStr (String c "")) <$> list_ascii_of_string s)
  | _ => raise TypeError
  end.

(** [[x for x in xs if keep x]]. *)
Fixpoint comprehension_if (keep : json -> M bool) (xs : list json) : M (list json) :=
  match xs with
  | [] => mret []
  | x :: rest =>
      b ← keep x;
      kept ← comprehension_if keep rest;
      mret (if (b : bool) then x :: kept else kept)
  end.

(** * The program *)

(** An HTTP request as the handlers see it: the headers, the peer address
    and the JSON body ([None] when the request carries none). *)
Record request : Type := Request {
  headers : gmap string string;
  remote_addr : string;
  body : option json
}.

(** A response: status code and JSON body. *)
Definition response : Type := Z * json.

(** [request.json]. *)
Definition request_json (req : request) : M json :=
  match body req with
  | Some v => mret v
  | None => raise BadRequest
  end.

(** [jsonify({...})] with status 200, and [jsonify({...}), code]. *)
Definition jsonify (fields : list (string * json)) : response :=
  (200, JObj (list_to_map fields)).

Definition jsonify_status (fields : list (string * json)) (code : Z) : response :=
  (code, JObj (list_to_map fields)).

Definition LIBRARY_FILE : string := "library_data.json".
Definition ADMIN_FILE : string := "admin.json".
Definition TOKEN_EXPIRY_HOURS : Z := 24.
Definition MAX_LOGS : Z := 1000.

(** Three library functions stay abstract: [strftime] is
    [t.strftime('%Y-%m-%d %H:%M:%S')], [repr] is what an f-string prints
    for a value that is not a [str], and [sha256_hexdigest] is
    [hashlib.sha256(s.encode()).hexdigest()]. *)
Class Runtime : Type := {
  strftime : time -> string;
  repr : json -> string;
  sha256_hexdigest : string -> string
}.

Section App.

Context `{Runtime}.

(** [f"{v}"]. *)
Definition str (v : json) : string :=
  match v with
  | JStr s => s
  | _ => repr v
  end.

(** ** The password utility, [hash_password.py] *)

Definition hash_password (password : string) : string :=
  sha256_hexdigest password.

(** The [admin_data] its [main] writes to [admin.json] for a non-empty
    [username] and [password]. *)
Definition hashed_admin_data (username password : string) : json :=
  JObj (list_to_map [("username", JStr username);
                     ("password", JStr (hash_password password))]).

(** ** Token management functions *)

Definition generate_token : M string := token_urlsafe.

Definition is_token_valid (token : string) : M bool :=
  tokens ← gets active_tokens;
  match tokens !! token with
  | Some expiry =>
      now ← datetime_now;
      if now <? expiry then mret true
      else
        (* Token expired, remove it *)
        modify (set_active_tokens (delete token));;
        mret false
  | None => mret false
  end.

Definition create_session_token : M string :=
  token ← generate_token;
  now ← datetime_now;
  let expiry := now + timedelta_hours TOKEN_EXPIRY_HOURS in
  modify (set_active_tokens (<[token := expiry]>));;
  mret token.

Definition revoke_token (token : string) : M unit :=
  tokens ← gets active_tokens;
  if bool_decide (is_Some (tokens !! token))
  then modify (set_active_tokens (delete token))
  else mret tt.

(** ** Logging functions *)

Definition add_log (message : string) : M unit :=
  now ← datetime_now;
  let timestamp := strftime now in
  let log_entry := "[" +:+ timestamp +:+ "] " +:+ message in
  modify (set_server_logs (fun logs => logs ++ [log_entry]));;
  (* Keep only the last MAX_LOGS entries *)
  logs ← gets server_logs;
  (if Z.of_nat (length logs) >? MAX_LOGS
   then modify (set_server_logs tail)
   else mret tt);;
  (* Also print to console *)
  print log_entry.

(** ** Library load/save functions *)

Definition load_library : M json :=
  present ← os_path_exists LIBRARY_FILE;
  if (present : bool) then
    try_except (json_load LIBRARY_FILE) (fun e =>
      match e with
      | JSONDecodeError =>
          print "library_data.json corrupted. Starting empty.";;
          mret (JList [])
      | _ => raise e
      end)
  else mret (JList []).

Definition save_library (links : json) : M unit :=
  json_dump links LIBRARY_FILE.

(** ** Admin load function *)

Definition load_admin : M json :=
  present ← os_path_exists ADMIN_FILE;
  if (present : bool) then
    try_except (json_load ADMIN_FILE) (fun e =>
      match e with
      | JSONDecodeError =>
          print "admin.json is corrupted.";;
          mret JNull
      | _ => raise e
      end)
  else
    print "admin.json missing!";;
    mret JNull.

(** ** IP logging *)

Definition log_ip (req : request) : M response :=
  let user_ip := remote_addr req in
  (* Check for proxies *)
  let forwarded := headers req !! "X-Forwarded-For" in
  user_ip ← match forwarded with
            | Some fwd =>
                if bool_decide (fwd = "") then mret user_ip
                else match split "," fwd !! 0%nat with
                     | Some first => mret first
                     | None => raise IndexError
                     end
            | None => mret user_ip
            end;
  add_log ("IP logged: " +:+ user_ip);;
  mret (jsonify [("status", JStr "success"); ("ip", JStr user_ip)]).

(** ** Admin login API *)

Definition admin_login (req : request) : M response :=
  data ← request_json req;
  username ← dict_get data "username" JNull;
  password ← dict_get data "password" JNull;
  admin_data ← load_admin;
  (* admin_data and username == admin_data.get("username")
                and password == admin_data.get("password") *)
  granted ← (if truthy admin_data then
               stored_username ← dict_get admin_data "username" JNull;
               if py_eq username stored_username then
                 stored_password ← dict_get admin_data "password" JNull;
                 mret (py_eq password stored_password)
               else mret false
             else mret false);
  if (granted : bool) then
    token ← create_session_token;
    add_log ("Admin login successful - Token: " +:+ substring 0 10 token +:+ "...");;
    mret (jsonify [("status", JStr "success"); ("token", JStr token)])
  else
    add_log "Admin login failed: Invalid credentials";;
    mret (jsonify_status [("status", JStr "error");
                          ("message", JStr "Invalid username or password")] 401).

(** ** Admin token verification API *)

(** [auth_header.split('Bearer ')[1]]. *)
Definition bearer_token (auth_header : string) : M string :=
  match split "Bearer " auth_header !! 1%nat with
  | Some token => mret token
  | None => raise IndexError
  end.

(** [auth_header and auth_header.startswith('Bearer ')]. *)
Definition is_bearer (auth_header : option string) : bool :=
  match auth_header with
  | Some h => negb (bool_decide (h = "")) && startswith "Bearer " h
  | None => false
  end.

Definition verify_token (req : request) : M response :=
  let auth_header := headers req !! "Authorization" in
  if negb (is_bearer auth_header) then
    mret (jsonify_status [("status", JStr "error");
                          ("message", JStr "No token provided")] 401)
  else
    token ← bearer_token (default "" auth_header);
    valid ← is_token_valid token;
    if (valid : bool) then mret (jsonify [("status", JStr "success")])
    else mret (jsonify_status [("status", JStr "error");
                               ("message", JStr "Invalid or expired token")] 401).

(** ** Admin logout API *)

Definition admin_logout (req : request) : M response :=
  let auth_header := headers req !! "Authorization" in
  (if is_bearer auth_header then
     token ← bearer_token (default "" auth_header);
     revoke_token token;;
     add_log "Admin logged out"
   else mret tt);;
  mret (jsonify [("status", JStr "success")]).

(** ** Logs API *)

Definition get_logs : M response :=
  logs ← gets server_logs;
  mret (jsonify [("logs", JList (JStr <$> logs))]).

Definition clear_logs : M response :=
  modify (set_server_logs (fun _ => []));;
  add_log "Logs cleared by admin";;
  mret (jsonify [("status", JStr "success")]).

(** ** Library API *)

Definition get_library : M response :=
  links ← gets library_links;
  mret (jsonify [("links", links)]).

Definition add_library_link (req : request) : M response :=
  data ← request_json req;
  name ← dict_get data "name" JNull;
  url ← dict_get data "url" JNull;
  if truthy name && truthy url then
    links ← gets library_links;
    links ← list_append links
      (JObj (list_to_map [("name", name); ("url", url); ("pinned", JBool false)]));
    modify (set_library_links (fun _ => links));;
    links ← gets library_links;
    save_library links;;
    add_log ("Added to library: " +:+ str name +:+ " - " +:+ str url);;
    links ← gets library_links;
    mret (jsonify [("status", JStr "success"); ("links", links)])
  else
    mret (jsonify_status [("status", JStr "error");
                          ("message", JStr "Name and URL required")] 400).

(** [0 <= index < len(library_links)]: [len] is evaluated only when
    [0 <= index] holds. *)
Definition index_in_bounds (index : Z) : M bool :=
  if 0 <=? index then
    links ← gets library_links;
    n ← py_len links;
    mret (index <? n)
  else mret false.

Definition delete_library_link (index : Z) : M response :=
  ok ← index_in_bounds index;
  if (ok : bool) then
    links ← gets library_links;
    popped ← py_pop links index;
    let removed := popped.1 in
    modify (set_library_links (fun _ => popped.2));;
    links ← gets library_links;
    save_library links;;
    name ← getitem_str removed "name";
    add_log ("Removed from library: " +:+ str name);;
    links ← gets library_links;
    mret (jsonify [("status", JStr "success"); ("links", links)])
  else
    mret (jsonify_status [("status", JStr "error");
                          ("message", JStr "Invalid index")] 400).

(** ** Pin/Unpin API *)

(** [library_links[index]]. *)
Definition link_at (index : Z) : M json :=
  links ← gets library_links;
  getitem_int links index.

(** [library_links[index][k] = v]: the record sits in the list, so the list
    holds the changed record afterwards. *)
Definition link_set (index : Z) (k : string) (v : json) : M unit :=
  links ← gets library_links;
  link ← getitem_int links index;
  link ← setitem_str link k v;
  match links with
  | JList l =>
      match norm_index index (length l) with
      | Some n => modify (set_library_links (fun _ => JList (<[n := link]> l)))
      | None => raise IndexError
      end
  | _ => raise TypeError
  end.

Definition toggle_pin (index : Z) : M response :=
  ok ← index_in_bounds index;
  if (ok : bool) then
    (* Ensure the link has a 'pinned' field *)
    link ← link_at index;
    missing ← not_in "pinned" link;
    (if (missing : bool) then link_set index "pinned" (JBool false) else mret tt);;
    link ← link_at index;
    pinned ← getitem_str link "pinned";
    link_set index "pinned" (JBool (negb (truthy pinned)));;
    links ← gets library_links;
    save_library links;;
    link ← link_at index;
    pinned ← getitem_str link "pinned";
    let status := if truthy pinned then "pinned" else "unpinned" in
    link ← link_at index;
    name ← getitem_str link "name";
    add_log ("Link " +:+ status +:+ ": " +:+ str name);;
    links ← gets library_links;
    mret (jsonify [("status", JStr "success"); ("links", links)])
  else
    mret (jsonify_status [("status", JStr "error");
                          ("message", JStr "Invalid index")] 400).

(** ** Pinned links API *)

Definition get_pinned : M response :=
  links ← gets library_links;
  items ← py_iter links;
  pinned ← comprehension_if (fun link =>
              flag ← dict_get link "pinned" (JBool false);
              mret (truthy flag)) items;
  mret (jsonify [("links", JList pinned)]).

(** ** The routes *)

(** The API routes; the [<int:index>] converter accepts digits only, so an
    index is a natural number.  The four page routes send a static file and
    touch nothing. *)
Inductive endpoint : Type :=
| POST_log_ip
| POST_api_admin_login
| POST_api_admin_verify
| POST_api_admin_logout
| GET_api_admin_logs
| DELETE_api_admin_logs
| GET_api_library
| POST_api_library
| DELETE_api_library (index : N)
| POST_api_library_pin (index : N)
| GET_api_pinned.

Definition dispatch (e : endpoint) (req : request) : M response :=
  match e with
  | POST_log_ip => log_ip req
  | POST_api_admin_login => admin_login req
  | POST_api_admin_verify => verify_token req
  | POST_api_admin_logout => admin_logout req
  | GET_api_admin_logs => get_logs
  | DELETE_api_admin_logs => clear_logs
  | GET_api_library => get_library
  | POST_api_library => add_library_link req
  | DELETE_api_library index => delete_library_link (Z.of_N index)
  | POST_api_library_pin index => toggle_pin (Z.of_N index)
  | GET_api_pinned => get_pinned
  end.

(** The process after [import]: empty token map and log, and
    [library_links = load_library()].  When [load_library] raises, the import
    fails and no server runs; [start] is then the state the module was left
    in, so what holds of every state from [start] holds of every state of a
    running server. *)
Definition start (fs : gmap string file_content)
    (clk : nat -> time) (rnd : nat -> string) : world :=
  let w0 := World ∅ [] (JList []) fs [] clk 0 rnd 0 in
  match load_library w0 with
  | (Ok links, w1) => set_library_links (fun _ => links) w1
  | (Raise _, w1) => w1
  end.

(** The states the server passes through: any request may follow any other,
    and the [__main__] block logs its start-up lines with [add_log]. *)
Inductive reachable : world -> Prop :=
| reach_start fs clk rnd : reachable (start fs clk rnd)
| reach_request e req w : reachable w -> reachable (dispatch e req w).2
| reach_add_log msg w : reachable w -> reachable (add_log msg w).2.

End App.

(** * Vocabulary of the properties *)

Section Vocabulary.

Context `{Runtime}.

(** The line [add_log] stores for [message] when the clock reads [t]. *)
Definition log_entry (t : time) (message : string) : string :=
  "[" +:+ strftime t +:+ "] " +:+ message.

(** [for message in messages: add_log(message)]. *)
Definition add_logs (messages : list string) : M unit :=
  foldr (fun message rest => add_log message;; rest) (mret tt) messages.

(** The lines [add_logs messages] builds, in order, when it starts at the
    [n]-th reading of the clock. *)
Definition log_entries (clk : nat -> time) (n : nat) (messages : list string) : list string :=
  imap (fun k message => log_entry (clk (n + k)%nat) message) messages.

End Vocabulary.

(** The last [n] elements of a list. *)
Definition last_n {A : Type} (n : nat) (l : list A) : list A :=
  drop (length l - n) l.

(** The record [add_library_link] builds. *)
Definition link_record (name url : json) : json :=
  JObj (list_to_map [("name", name); ("url", url); ("pinned", JBool false)]).

(** [link.get('pinned', False)] on a record. *)
Definition pinned_flag (fields : gmap string json) : json :=
  default (JBool false) (fields !! "pinned").

(** A record whose [pinned] flag is [true]. *)
Definition is_pinned (link : json) : bool :=
  match link with
  | JObj fields =>
      match fields !! "pinned" with
      | Some (JBool true) => true
      | _ => false
      end
  | _ => false
  end.

(** A link record as the data model has it: an object whose [pinned] flag,
    when present, is a boolean. *)
Definition is_link_record (link : json) : bool :=
  match link with
  | JObj fields =>
      match fields !! "pinned" with
      | None | Some (JBool _) => true
      | Some _ => false
      end
  | _ => false
  end.

(** An object, whatever its fields. *)
Definition is_object (link : json) : bool :=
  match link with
  | JObj _ => true
  | _ => false
  end.

(** The flag [get_pinned] tests on an object. *)
Definition listed (link : json) : bool :=
  match link with
  | JObj fields => truthy (pinned_flag fields)
  | _ => false
  end.

(** The two answers of the login route. *)
Definition login_success (token : string) : response :=
  jsonify [("status", JStr "success"); ("token", JStr token)].

Definition login_failure : response :=
  jsonify_status [("status", JStr "error");
                  ("message", JStr "Invalid username or password")] 401.

(** Login granted from [w]: the answer carries the fresh token and the token
    map holds it until 24 hours after the clock reading. *)
Definition login_granted (out : result response * world) (w : world) : Prop :=
  let token := entropy w (entropy_reads w) in
  out.1 = Ok (login_success token) ∧
  active_tokens out.2 =
    <[token := clock w (clock_reads w) + timedelta_hours 24]> (active_tokens w).

(** Login refused: a 401 and the token map as it was. *)
Definition login_refused (out : result response * world) (w : world) : Prop :=
  out.1 = Ok login_failure ∧ active_tokens out.2 = active_tokens w.

(** The routes that change the library. *)
Definition mutates_library (e : endpoint) : bool :=
  match e with
  | POST_api_library | DELETE_api_library _ | POST_api_library_pin _ => true
  | _ => false
  end.

(** The same request with other headers. *)
Definition with_headers (hs : gmap string string) (req : request) : request :=
  Request hs (remote_addr req) (body req).

(** [m] neither reads nor writes the token map: started with any other map
    it gives the same result and the same world, that map apart. *)
Definition ignores_tokens {A : Type} (m : M A) : Prop :=
  forall (w : world) (tokens : gmap string time),
    m (set_active_tokens (fun _ => tokens) w) =
    ((m w).1, set_active_tokens (fun _ => tokens) (m w).2).

(** The log after [entry] is appended and the bound enforced. *)
Definition push_log (entry : string) (logs : list string) : list string :=
  if Z.of_nat (length (logs ++ [entry])) >? MAX_LOGS
  then tail (logs ++ [entry])
  else logs ++ [entry].

(** [admin_data and username == admin_data.get("username") and
    password == admin_data.get("password")] for a request body [data] and
    an admin record that is an object or [None]. *)
Definition credentials_match (data : gmap string json) (admin_data : json) : bool :=
  match admin_data with
  | JObj admin =>
      truthy admin_data &&
      py_eq (default JNull (data !! "username")) (default JNull (admin !! "username")) &&
      py_eq (default JNull (data !! "password")) (default JNull (admin !! "password"))
  | _ => false
  end.

(** The log holds at most [MAX_LOGS] lines. *)
Definition log_bounded (w : world) : Prop :=
  Z.of_nat (length (server_logs w)) <= MAX_LOGS.

(** [m] keeps [P]: if [P] holds of the world before, it holds after, whether
    [m] returns or raises. *)
Definition keeps {A : Type} (P : world -> Prop) (m : M A) : Prop :=
  forall w : world, P w -> P (m w).2.

(** * A concrete server, for the worked examples *)

Module Sample.

(** A runtime whose clock always prints the same second, whose [repr]
    prints a placeholder and whose digest is the one of ["secret"]. *)
Definition runtime : Runtime :=
  {| strftime := fun _ => "2024-05-01 12:00:00";
     repr := fun _ => "<value>";
     sha256_hexdigest := fun _ =>
       "2bb80d537b1da3e38bd30361aa855686bde0eacd7162fef6a25fe97bf527a25b" |}.

(** One second between two readings of the clock. *)
Definition clk (n : nat) : time := Z.of_nat n * 1000000.

(** A clock that jumps a day and a second ahead after its first reading. *)
Definition slow_clk (n : nat) : time :=
  match n with
  | O => 0
  | S _ => 86401000000
  end.

Definition rnd (n : nat) : string :=
  match n with
  | O => "Zm9vYmFyYmF6cXV4"
  | S _ => "c2Vjb25kLXRva2Vu"
  end.

Definition admin_record : json :=
  JObj (list_to_map [("username", JStr "admin"); ("password", JStr "secret")]).

(** An admin file that is an object without credentials. *)
Definition odd_admin_record : json :=
  JObj (list_to_map [("note", JStr "to be filled in")]).

Definition wiki : json :=
  JObj (list_to_map [("name", JStr "Wiki"); ("url", JStr "http://wiki");
                     ("pinned", JBool true)]).

Definition news : json :=
  JObj (list_to_map [("name", JStr "News"); ("url", JStr "http://news");
                     ("pinned", JBool false)]).

(** A record from an older file, without the flag. *)
Definition legacy : json :=
  JObj (list_to_map [("name", JStr "Old"); ("url", JStr "http://old")]).

Definition server (links : list json) (admin : json) (clock : nat -> time) : world :=
  World ∅ [] (JList links)
        (list_to_map [(LIBRARY_FILE, JsonText (JList links));
                      (ADMIN_FILE, JsonText admin)])
        [] clock 0 rnd 0.

Definition empty_server : world := server [] admin_record clk.

Definition post (fields : list (string * json)) : request :=
  Request ∅ "203.0.113.7" (Some (JObj (list_to_map fields))).

Definition add_wiki : request :=
  post [("name", JStr "Wiki"); ("url", JStr "http://wiki")].

Definition good_login : request :=
  post [("username", JStr "admin"); ("password", JStr "secret")].

Definition bad_login : request :=
  post [("username", JStr "admin"); ("password", JStr "guess")].

Definition empty_login : request := post [].

(** The files next to a fresh installation: an empty library and the admin
    record. *)
Definition fresh_files : gmap string file_content :=
  list_to_map [(LIBRARY_FILE, JsonText (JList [])); (ADMIN_FILE, JsonText admin_record)].

(** The server after Wiki was posted twice and both copies pinned. *)
Definition wiki_twice : world :=
  let w0 := @start fresh_files clk rnd in
  let w1 := (@dispatch runtime POST_api_library add_wiki w0).2 in
  let w2 := (@dispatch runtime POST_api_library add_wiki w1).2 in
  let w3 := (@dispatch runtime (POST_api_library_pin 0) add_wiki w2).2 in
  (@dispatch runtime (POST_api_library_pin 1) add_wiki w3).2.

End Sample.

(** * The rest of the program: vocabulary *)

(** The header a client sends for [token]. *)
Definition bearer_header (token : string) : string := "Bearer " +:+ token.

(** A request that carries [token] in its [Authorization] header. *)
Definition carries (req : request) (token : string) : Prop :=
  headers req !! "Authorization" = Some (bearer_header token).

(** The answers of the admin and index routes. *)
Definition ok_response : response := jsonify [("status", JStr "success")].

Definition no_token_response : response :=
  jsonify_status [("status", JStr "error"); ("message", JStr "No token provided")] 401.

Definition invalid_token_response : response :=
  jsonify_status [("status", JStr "error");
                  ("message", JStr "Invalid or expired token")] 401.

Definition invalid_index_response : response :=
  jsonify_status [("status", JStr "error"); ("message", JStr "Invalid index")] 400.

Definition links_response (links : json) : response :=
  jsonify [("status", JStr "success"); ("links", links)].

(** The routes that answer from the log or the library without changing
    the library. *)
Definition reads_state (e : endpoint) : bool :=
  match e with
  | GET_api_admin_logs | DELETE_api_admin_logs | GET_api_library | GET_api_pinned => true
  | _ => false
  end.

(** Every route but the login. *)
Definition is_login (e : endpoint) : bool :=
  match e with
  | POST_api_admin_login => true
  | _ => false
  end.


(** Every line of the log has been printed. *)
Definition logs_on_console (w : world) : Prop :=
  forall line, line ∈ server_logs w -> line ∈ console w.

Section RestartVocabulary.

Context `{Runtime}.



End RestartVocabulary.

(** * The password utility as a program *)

Module Utility.

(** [json.dumps(v, indent=2)], the text [main] shows, stays abstract. *)
Class Printer : Type := { dumps_indent2 : json -> string }.

(** The terminal and the directory [hash_password.py] runs in: the lines
    still to be typed, what was written to the screen (oldest first), and
    the files. *)
Record terminal : Type := Terminal {
  stdin : list string;
  stdout : list string;
  disk : gmap string file_content
}.

(** How a run ends: [main] returns, or [input] meets the end of the input
    and raises [EOFError]. *)
Inductive ending : Type :=
| Returned
| EOFError.

Definition newline : string := String (Ascii.ascii_of_nat 10) "".

(** [print(text)]. *)
Definition print (text : string) (t : terminal) : terminal :=
  Terminal (stdin t) (stdout t ++ [text +:+ newline]) (disk t).

(** [input(prompt)]: the prompt is written, the next line is read. *)
Definition input (prompt : string) (t : terminal) : option string * terminal :=
  let t' := Terminal (stdin t) (stdout t ++ [prompt]) (disk t) in
  match stdin t with
  | line :: rest => (Some line, Terminal rest (stdout t') (disk t'))
  | [] => (None, t')
  end.

(** [c.isspace()] for a character below 256. *)
Definition isspace (c : Ascii.ascii) : bool :=
  let n := Ascii.nat_of_ascii c in
  ((9 <=? n) && (n <=? 13) || (28 <=? n) && (n <=? 32) ||
   (n =? 133) || (n =? 160))%nat.

Fixpoint lstrip_chars (cs : list Ascii.ascii) : list Ascii.ascii :=
  match cs with
  | c :: rest => if isspace c then lstrip_chars rest else cs
  | [] => []
  end.

(** [s.strip()]. *)
Definition strip (s : string) : string :=
  string_of_list_ascii
    (rev (lstrip_chars (rev (lstrip_chars (list_ascii_of_string s))))).

(** [c.lower()] for a character below 256. *)
Definition lower_char (c : Ascii.ascii) : Ascii.ascii :=
  let n := Ascii.nat_of_ascii c in
  if ((65 <=? n) && (n <=? 90) ||
      (192 <=? n) && (n <=? 222) && negb (n =? 215))%nat
  then Ascii.ascii_of_nat (n + 32)
  else c.

(** [s.lower()]. *)
Definition lower (s : string) : string :=
  string_of_list_ascii (lower_char <$> list_ascii_of_string s).

(** ["=" * n]. *)
Definition times (s : string) (n : nat) : string :=
  String.concat "" (replicate n s).

Section Main.

Context `{Runtime} `{Printer}.

Definition main (t : terminal) : ending * terminal :=
  let t := print "Password Hasher for admin.json" t in
  let t := print (times "=" 40) t in
  match input "Enter username: " t with
  | (None, t) => (EOFError, t)
  | (Some line, t) =>
      let username := strip line in
      match input "Enter password: " t with
      | (None, t) => (EOFError, t)
      | (Some line, t) =>
          let password := strip line in
          if bool_decide (username = "") || bool_decide (password = "") then
            (Returned, print "Error: Username and password cannot be empty" t)
          else
            let admin_data := hashed_admin_data username password in
            let t := print (newline +:+ "Generated admin.json content:") t in
            let t := print (dumps_indent2 admin_data) t in
            match input (newline +:+ "Save to admin.json? (y/n): ") t with
            | (None, t) => (EOFError, t)
            | (Some line, t) =>
                let save := lower (strip line) in
                if bool_decide (save = "y") then
                  let t := Terminal (stdin t) (stdout t)
                             (<[ADMIN_FILE := JsonText admin_data]> (disk t)) in
                  (Returned, print "Saved to admin.json" t)
                else
                  (Returned, print "Not saved. Copy the JSON above manually." t)
            end
      end
  end.

End Main.

End Utility.

(** * More concrete cases *)

Module Cases.

Definition printer : Utility.Printer :=
  {| Utility.dumps_indent2 := fun _ => "{...}" |}.

(** Someone types a name, a password and [Y], with stray blanks. *)
Definition typing : Utility.terminal :=
  Utility.Terminal ["  admin "; "secret"; " Y"] [] ∅.

(** A request with a bearer token. *)
Definition with_token (token : string) : request :=
  Request {[ "Authorization" := bearer_header token ]} "203.0.113.7" None.

(** A request that came through a proxy. *)
Definition proxied : request :=
  Request {[ "X-Forwarded-For" := "198.51.100.4" ]} "10.0.0.1" None.

(** A link without a name. *)
Definition nameless : json :=
  JObj (list_to_map [("url", JStr "http://x"); ("pinned", JBool true)]).

(** A server where one token is live until the end of the first day. *)
Definition logged_in : world :=
  set_active_tokens (fun _ => {[ "Zm9vYmFyYmF6cXV4" := 86400000000 ]})
    Sample.empty_server.

(** A server next to the file the utility wrote for [admin] / [secret]. *)
Definition hashed_server : world :=
  Sample.server [] (@hashed_admin_data Sample.runtime "admin" "secret") Sample.clk.

(** A server started in the directory where [typing] took place. *)
Definition installed : world :=
  World ∅ [] (JList [])
        (Utility.disk (@Utility.main Sample.runtime printer typing).2)
        [] Sample.clk 0 Sample.rnd 0.

(** A login that sends the stored digest as the password. *)
Definition digest_login : request :=
  Sample.post [("username", JStr "admin");
               ("password",
                JStr "2bb80d537b1da3e38bd30361aa855686bde0eacd7162fef6a25fe97bf527a25b")].

End Cases.

(** * Running computations *)

Lemma run_bind {A B : Type} (m : M A) (k : A -> M B) (w : world) :
  (m ≫= k) w = match m w with
               | (Ok a, w') => k a w'
               | (Raise e, w') => (Raise e, w')
               end.
Proof. reflexivity. Qed.

Lemma run_ret {A : Type} (a : A) (w : world) : (mret a : M A) w = (Ok a, w).
Proof. reflexivity. Qed.

Lemma run_ret_bind {A B : Type} (a : A) (k : A -> M B) (w : world) :
  (mret a ≫= k) w = k a w.
Proof. reflexivity. Qed.

Lemma run_raise_bind {A B : Type} (e : exn) (k : A -> M B) (w : world) :
  (raise e ≫= k) w = (Raise e, w).
Proof. reflexivity. Qed.

Lemma run_gets {A B : Type} (f : world -> A) (k : A -> M B) (w : world) :
  (gets f ≫= k) w = k (f w) w.
Proof. reflexivity. Qed.

Lemma run_modify {B : Type} (f : world -> world) (k : unit -> M B) (w : world) :
  (modify f ≫= k) w = k tt (f w).
Proof. reflexivity. Qed.

Lemma run_now {B : Type} (k : time -> M B) (w : world) :
  (datetime_now ≫= k) w = k (clock w (clock_reads w)) (tick_clock w).
Proof. reflexivity. Qed.

Lemma run_token {B : Type} (k : string -> M B) (w : world) :
  (token_urlsafe ≫= k) w = k (entropy w (entropy_reads w)) (tick_entropy w).
Proof. reflexivity. Qed.

Lemma run_print {B : Type} (line : string) (k : unit -> M B) (w : world) :
  (print line ≫= k) w = k tt (set_console (fun out => out ++ [line]) w).
Proof. reflexivity. Qed.

Lemma run_exists {B : Type} (path : string) (k : bool -> M B) (w : world) :
  (os_path_exists path ≫= k) w = k (bool_decide (is_Some (files w !! path))) w.
Proof. reflexivity. Qed.

Lemma run_assoc {A B C : Type} (m : M A) (f : A -> M B) (g : B -> M C) (w : world) :
  ((m ≫= f) ≫= g) w = (m ≫= fun a => f a ≫= g) w.
Proof.
  rewrite !run_bind. destruct (m w) as [[a|e] w']; [|reflexivity].
  by rewrite run_bind.
Qed.

Lemma run_dict_get {B : Type} (m : gmap string json) (key : string) (dflt : json)
    (k : json -> M B) (w : world) :
  (dict_get (JObj m) key dflt ≫= k) w = k (default dflt (m !! key)) w.
Proof. reflexivity. Qed.

Create Rewrite HintDb pyrun.
#[local] Hint Rewrite @run_assoc @run_ret_bind @run_raise_bind @run_gets @run_modify
  @run_now @run_token @run_print @run_exists @run_dict_get @run_ret : pyrun.

Ltac pyrun := autorewrite with pyrun; cbn [fst snd].

Section Properties.

Context `{Runtime}.

(** ** Session tokens *)

Lemma is_token_valid_absent (token : string) (w : world) :
  active_tokens w !! token = None ->
  is_token_valid token w = (Ok false, w).
Proof.
  intros Habsent. unfold is_token_valid. pyrun. by rewrite Habsent.
Qed.

Lemma is_token_valid_live (token : string) (w : world) (expiry : time) :
  active_tokens w !! token = Some expiry ->
  clock w (clock_reads w) < expiry ->
  is_token_valid token w = (Ok true, tick_clock w).
Proof.
  intros Hpresent Hlive. unfold is_token_valid. pyrun. rewrite Hpresent. pyrun.
  by rewrite (proj2 (Z.ltb_lt _ _) Hlive).
Qed.

Lemma is_token_valid_expired (token : string) (w : world) (expiry : time) :
  active_tokens w !! token = Some expiry ->
  expiry <= clock w (clock_reads w) ->
  is_token_valid token w =
    (Ok false, set_active_tokens (delete token) (tick_clock w)).
Proof.
  intros Hpresent Hdead. unfold is_token_valid. pyrun. rewrite Hpresent. pyrun.
  by rewrite (proj2 (Z.ltb_ge _ _) Hdead).
Qed.

Lemma create_session_token_run (w : world) :
  create_session_token w =
    (Ok (entropy w (entropy_reads w)),
     set_active_tokens
       (<[entropy w (entropy_reads w) :=
            clock w (clock_reads w) + timedelta_hours TOKEN_EXPIRY_HOURS]>)
       (tick_clock (tick_entropy w))).
Proof. reflexivity. Qed.

(** C3. [is_token_valid] answers true exactly when the token is in the map
    with an expiry strictly after the clock reading; an expired token is
    deleted and answered false; an absent token is answered false and the
    world stays as it is.  A token fresh from [create_session_token] is
    valid at once, and invalid and deleted once 24 hours have passed. *)
Theorem C3_is_token_valid (token : string) (w : world) :
  let now := clock w (clock_reads w) in
  ((is_token_valid token w).1 = Ok true <->
   exists expiry, active_tokens w !! token = Some expiry /\ now < expiry) /\
  (forall expiry,
     active_tokens w !! token = Some expiry -> expiry <= now ->
     (is_token_valid token w).1 = Ok false /\
     active_tokens (is_token_valid token w).2 = delete token (active_tokens w)) /\
  (active_tokens w !! token = None ->
   is_token_valid token w = (Ok false, w)) /\
  (let issued := create_session_token w in
   let later := clock issued.2 (clock_reads issued.2) in
   exists fresh,
     issued.1 = Ok fresh /\
     active_tokens issued.2 !! fresh = Some (now + timedelta_hours 24) /\
     (later < now + timedelta_hours 24 ->
      (is_token_valid fresh issued.2).1 = Ok true) /\
     (now + timedelta_hours 24 <= later ->
      (is_token_valid fresh issued.2).1 = Ok false /\
      active_tokens (is_token_valid fresh issued.2).2 !! fresh = None)).
Proof.
  intros now. split; [split|split; [|split]].
  - intros Htrue. destruct (active_tokens w !! token) as [expiry|] eqn:Hlook.
    + exists expiry. split; [done|].
      destruct (Z.lt_ge_cases now expiry) as [|Hdead]; [done|].
      rewrite (is_token_valid_expired _ _ _ Hlook Hdead) in Htrue. discriminate.
    + rewrite (is_token_valid_absent _ _ Hlook) in Htrue. discriminate.
  - intros (expiry & Hlook & Hlive).
    by rewrite (is_token_valid_live _ _ _ Hlook Hlive).
  - intros expiry Hlook Hdead.
    by rewrite (is_token_valid_expired _ _ _ Hlook Hdead).
  - apply is_token_valid_absent.
  - rewrite create_session_token_run. cbn [fst snd].
    set (fresh := entropy w (entropy_reads w)).
    set (w1 := set_active_tokens _ _).
    assert (Hfresh : active_tokens w1 !! fresh = Some (now + timedelta_hours 24))
      by apply lookup_insert_eq.
    exists fresh. split; [done|]. split; [done|]. split.
    + intros Hlive. by rewrite (is_token_valid_live _ _ _ Hfresh Hlive).
    + intros Hdead. rewrite (is_token_valid_expired _ _ _ Hfresh Hdead).
      split; [done|]. apply lookup_delete_eq.
Qed.


(** ** Reading the two files *)

Lemma file_present (w : world) (path : string) (c : file_content) :
  files w !! path = Some c -> bool_decide (is_Some (files w !! path)) = true.
Proof. intros ->. by apply bool_decide_eq_true_2. Qed.

Lemma file_missing (w : world) (path : string) :
  files w !! path = None -> bool_decide (is_Some (files w !! path)) = false.
Proof. intros ->. apply bool_decide_eq_false_2. by intros [c Hc]. Qed.

Lemma json_load_run (path : string) (w : world) :
  json_load path w =
    match files w !! path with
    | Some (JsonText v) => (Ok v, w)
    | Some Unparsable => (Raise JSONDecodeError, w)
    | Some Undecodable => (Raise UnicodeDecodeError, w)
    | Some TooDeep => (Raise RecursionError, w)
    | Some HugeInteger => (Raise ValueError, w)
    | None => (Raise FileNotFoundError, w)
    end.
Proof.
  unfold json_load. pyrun. by destruct (files w !! path) as [[|v| | |]|].
Qed.

Lemma load_library_missing (w : world) :
  files w !! LIBRARY_FILE = None ->
  load_library w = (Ok (JList []), w).
Proof.
  intros Hfile. unfold load_library. pyrun. by rewrite (file_missing _ _ Hfile).
Qed.

Lemma load_library_corrupt (w : world) :
  files w !! LIBRARY_FILE = Some Unparsable ->
  load_library w =
    (Ok (JList []),
     set_console (fun out => out ++ ["library_data.json corrupted. Starting empty."]) w).
Proof.
  intros Hfile. unfold load_library. pyrun. rewrite (file_present _ _ _ Hfile).
  unfold try_except. by rewrite json_load_run, Hfile.
Qed.

Lemma load_library_parsed (w : world) (v : json) :
  files w !! LIBRARY_FILE = Some (JsonText v) ->
  load_library w = (Ok v, w).
Proof.
  intros Hfile. unfold load_library. pyrun. rewrite (file_present _ _ _ Hfile).
  unfold try_except. by rewrite json_load_run, Hfile.
Qed.

Lemma load_library_undecodable (w : world) :
  files w !! LIBRARY_FILE = Some Undecodable ->
  load_library w = (Raise UnicodeDecodeError, w).
Proof.
  intros Hfile. unfold load_library. pyrun. rewrite (file_present _ _ _ Hfile).
  unfold try_except. by rewrite json_load_run, Hfile.
Qed.

Lemma load_library_too_deep (w : world) :
  files w !! LIBRARY_FILE = Some TooDeep ->
  load_library w = (Raise RecursionError, w).
Proof.
  intros Hfile. unfold load_library. pyrun. rewrite (file_present _ _ _ Hfile).
  unfold try_except. by rewrite json_load_run, Hfile.
Qed.

Lemma load_library_huge_integer (w : world) :
  files w !! LIBRARY_FILE = Some HugeInteger ->
  load_library w = (Raise ValueError, w).
Proof.
  intros Hfile. unfold load_library. pyrun. rewrite (file_present _ _ _ Hfile).
  unfold try_except. by rewrite json_load_run, Hfile.
Qed.

(** [load_library], by the content of the library file. *)
Lemma load_library_run (w : world) :
  load_library w =
    match files w !! LIBRARY_FILE with
    | None => (Ok (JList []), w)
    | Some Unparsable =>
        (Ok (JList []),
         set_console (fun out => out ++ ["library_data.json corrupted. Starting empty."]) w)
    | Some (JsonText v) => (Ok v, w)
    | Some Undecodable => (Raise UnicodeDecodeError, w)
    | Some TooDeep => (Raise RecursionError, w)
    | Some HugeInteger => (Raise ValueError, w)
    end.
Proof.
  destruct (files w !! LIBRARY_FILE) as [[|v| | |]|] eqn:Hfile.
  - by apply load_library_corrupt.
  - by apply load_library_parsed.
  - by apply load_library_undecodable.
  - by apply load_library_too_deep.
  - by apply load_library_huge_integer.
  - by apply load_library_missing.
Qed.

Lemma load_admin_missing (w : world) :
  files w !! ADMIN_FILE = None ->
  load_admin w = (Ok JNull, set_console (fun out => out ++ ["admin.json missing!"]) w).
Proof.
  intros Hfile. unfold load_admin. pyrun. by rewrite (file_missing _ _ Hfile).
Qed.

Lemma load_admin_corrupt (w : world) :
  files w !! ADMIN_FILE = Some Unparsable ->
  load_admin w =
    (Ok JNull, set_console (fun out => out ++ ["admin.json is corrupted."]) w).
Proof.
  intros Hfile. unfold load_admin. pyrun. rewrite (file_present _ _ _ Hfile).
  unfold try_except. by rewrite json_load_run, Hfile.
Qed.

Lemma load_admin_parsed (w : world) (v : json) :
  files w !! ADMIN_FILE = Some (JsonText v) ->
  load_admin w = (Ok v, w).
Proof.
  intros Hfile. unfold load_admin. pyrun. rewrite (file_present _ _ _ Hfile).
  unfold try_except. by rewrite json_load_run, Hfile.
Qed.

(** [load_admin], by the content of the admin file. *)
Lemma load_admin_run (w : world) :
  load_admin w =
    match files w !! ADMIN_FILE with
    | None => (Ok JNull, set_console (fun out => out ++ ["admin.json missing!"]) w)
    | Some Unparsable =>
        (Ok JNull, set_console (fun out => out ++ ["admin.json is corrupted."]) w)
    | Some (JsonText v) => (Ok v, w)
    | Some Undecodable => (Raise UnicodeDecodeError, w)
    | Some TooDeep => (Raise RecursionError, w)
    | Some HugeInteger => (Raise ValueError, w)
    end.
Proof.
  destruct (files w !! ADMIN_FILE) as [[|v| | |]|] eqn:Hfile;
    [by apply load_admin_corrupt|by apply load_admin_parsed| | | |
     by apply load_admin_missing];
    unfold load_admin; pyrun; rewrite (file_present _ _ _ Hfile);
    unfold try_except; by rewrite json_load_run, Hfile.
Qed.

(** C8. [load_library] returns the empty list when the library file is
    missing, and the empty list after a warning on the console when the file
    is text that is not JSON; a file that parses gives its value.  It is not
    total on corrupt input: the handler names [JSONDecodeError] only, so a
    file of bytes that are not text, a file nested too deep and a file with
    too long an integer make it raise [UnicodeDecodeError], [RecursionError]
    and [ValueError], with no warning printed and nothing returned. *)
Theorem C8_load_library_corrupt_file (w : world) :
  (files w !! LIBRARY_FILE = None ->
   load_library w = (Ok (JList []), w)) /\
  (files w !! LIBRARY_FILE = Some Unparsable ->
   (load_library w).1 = Ok (JList []) /\
   console (load_library w).2 =
     console w ++ ["library_data.json corrupted. Starting empty."]) /\
  (forall v, files w !! LIBRARY_FILE = Some (JsonText v) ->
   load_library w = (Ok v, w)) /\
  (files w !! LIBRARY_FILE = Some Undecodable ->
   load_library w = (Raise UnicodeDecodeError, w)) /\
  (files w !! LIBRARY_FILE = Some TooDeep ->
   load_library w = (Raise RecursionError, w)) /\
  (files w !! LIBRARY_FILE = Some HugeInteger ->
   load_library w = (Raise ValueError, w)).
Proof.
  split; [|split; [|split; [|split; [|split]]]].
  - apply load_library_missing.
  - intros Hfile. by rewrite (load_library_corrupt _ Hfile).
  - apply load_library_parsed.
  - apply load_library_undecodable.
  - apply load_library_too_deep.
  - apply load_library_huge_integer.
Qed.

(** ** The log *)

Lemma add_log_run (message : string) (w : world) :
  add_log message w =
    (Ok tt,
     set_console (fun out => out ++ [log_entry (clock w (clock_reads w)) message])
       (set_server_logs (push_log (log_entry (clock w (clock_reads w)) message))
          (tick_clock w))).
Proof.
  unfold add_log, push_log, log_entry, print. pyrun.
  unfold set_server_logs, set_console, tick_clock.
  cbn [server_logs active_tokens library_links files console clock clock_reads
       entropy entropy_reads].
  destruct (_ >? _); by pyrun.
Qed.

Lemma run_add_log {B : Type} (message : string) (k : unit -> M B) (w : world) :
  (add_log message ≫= k) w =
    k tt (set_console (fun out => out ++ [log_entry (clock w (clock_reads w)) message])
            (set_server_logs (push_log (log_entry (clock w (clock_reads w)) message))
               (tick_clock w))).
Proof. by rewrite run_bind, add_log_run. Qed.

(** ** Login *)

Lemma admin_login_run (req : request) (w w1 : world)
    (data : gmap string json) (admin_data : json) :
  body req = Some (JObj data) ->
  load_admin w = (Ok admin_data, w1) ->
  admin_data = JNull \/ (exists admin, admin_data = JObj admin) ->
  admin_login req w =
    if credentials_match data admin_data then
      (token ← create_session_token;
       add_log ("Admin login successful - Token: " +:+ substring 0 10 token +:+ "...");;
       mret (login_success token)) w1
    else
      (add_log "Admin login failed: Invalid credentials";;
       mret login_failure) w1.
Proof.
  intros Hbody Hadmin Hshape. unfold admin_login, request_json. rewrite Hbody.
  pyrun. rewrite run_bind, Hadmin.
  destruct Hshape as [->|[admin ->]].
  - by pyrun.
  - unfold credentials_match. destruct (truthy (JObj admin)); pyrun; [|reflexivity].
    cbn [andb]. destruct (py_eq _ (default JNull (admin !! "username")));
      pyrun; [|reflexivity].
    cbn [andb]. destruct (py_eq _ _); reflexivity.
Qed.

Lemma login_grant_path (w1 w : world) :
  clock w1 = clock w -> clock_reads w1 = clock_reads w ->
  entropy w1 = entropy w -> entropy_reads w1 = entropy_reads w ->
  active_tokens w1 = active_tokens w ->
  login_granted
    ((token ← create_session_token;
      add_log ("Admin login successful - Token: " +:+ substring 0 10 token +:+ "...");;
      mret (login_success token)) w1) w.
Proof.
  intros Hclock Hreads Hentropy Hdrawn Htokens.
  rewrite run_bind, create_session_token_run, run_add_log. pyrun.
  unfold login_granted. cbn. by rewrite Hclock, Hreads, Hentropy, Hdrawn, Htokens.
Qed.

Lemma login_refuse_path (w1 w : world) :
  active_tokens w1 = active_tokens w ->
  login_refused
    ((add_log "Admin login failed: Invalid credentials";;
      mret login_failure) w1) w.
Proof.
  intros Htokens. rewrite run_add_log. pyrun. by unfold login_refused.
Qed.

Lemma py_eq_str_l (s : string) (v : json) :
  py_eq (JStr s) v = true <-> v = JStr s.
Proof.
  destruct v; cbn; try (split; [discriminate|intros [=]]).
  rewrite bool_decide_eq_true. split; [by intros ->|by intros [= ->]].
Qed.


Lemma truthy_nonempty_object (m : gmap string json) (k : string) (v : json) :
  m !! k = Some v -> truthy (JObj m) = true.
Proof.
  intros Hk. cbn. apply negb_true_iff, bool_decide_eq_false_2.
  intros Hsize. apply map_size_empty_iff in Hsize. subst m.
  by rewrite lookup_empty in Hk.
Qed.

Lemma default_is_str (o : option json) (s : string) :
  default JNull o = JStr s <-> o = Some (JStr s).
Proof.
  destruct o as [v|]; cbn; [|split; discriminate].
  split; [by intros ->|by intros [= ->]].
Qed.

Lemma credentials_match_strings (data admin : gmap string json) (u p : string) :
  data !! "username" = Some (JStr u) ->
  data !! "password" = Some (JStr p) ->
  credentials_match data (JObj admin) = true <->
  admin !! "username" = Some (JStr u) /\ admin !! "password" = Some (JStr p).
Proof.
  intros Hu Hp. unfold credentials_match. rewrite Hu, Hp. cbn [default from_option id].
  rewrite !andb_true_iff, !py_eq_str_l, !default_is_str. split.
  - by intros [[_ ?] ?].
  - intros [Hau Hap]. split; [split|]; [|done|done].
    exact (truthy_nonempty_object _ _ _ Hau).
Qed.

Lemma login_not_both (out : result response * world) (w : world) :
  login_granted out w -> login_refused out w -> False.
Proof.
  intros [Hok _] [Hfail _]. rewrite Hok in Hfail.
  unfold login_success, login_failure, jsonify, jsonify_status in Hfail.
  by injection Hfail.
Qed.

Lemma load_admin_keeps (w : world) :
  let w1 := (load_admin w).2 in
  clock w1 = clock w /\ clock_reads w1 = clock_reads w /\
  entropy w1 = entropy w /\ entropy_reads w1 = entropy_reads w /\
  active_tokens w1 = active_tokens w.
Proof.
  rewrite load_admin_run. by destruct (files w !! ADMIN_FILE) as [[|v| | |]|].
Qed.

(** What [admin_login] answers, by whether the credentials match. *)
Lemma admin_login_outcome (req : request) (w w1 : world)
    (data : gmap string json) (admin_data : json) :
  body req = Some (JObj data) ->
  load_admin w = (Ok admin_data, w1) ->
  admin_data = JNull \/ (exists admin, admin_data = JObj admin) ->
  if credentials_match data admin_data
  then login_granted (admin_login req w) w
  else login_refused (admin_login req w) w.
Proof.
  intros Hbody Hadmin Hshape.
  rewrite (admin_login_run _ _ _ _ _ Hbody Hadmin Hshape).
  pose proof (load_admin_keeps w) as Hkeep. rewrite Hadmin in Hkeep.
  cbn [snd] in Hkeep. destruct Hkeep as (? & ? & ? & ? & ?).
  destruct (credentials_match data admin_data).
  - by apply login_grant_path.
  - by apply login_refuse_path.
Qed.

Lemma admin_login_parsed (req : request) (w : world) (data admin : gmap string json) :
  body req = Some (JObj data) ->
  files w !! ADMIN_FILE = Some (JsonText (JObj admin)) ->
  if credentials_match data (JObj admin)
  then login_granted (admin_login req w) w
  else login_refused (admin_login req w) w.
Proof.
  intros Hbody Hfile.
  exact (admin_login_outcome req w w data (JObj admin) Hbody
           (load_admin_parsed _ _ Hfile) (or_intror (ex_intro _ admin eq_refl))).
Qed.


(** Submitted strings against a stored record: the token is issued exactly
    when both are the stored strings. *)
Lemma admin_login_strings (req : request) (w : world)
    (data admin : gmap string json) (u p : string) :
  body req = Some (JObj data) ->
  files w !! ADMIN_FILE = Some (JsonText (JObj admin)) ->
  data !! "username" = Some (JStr u) ->
  data !! "password" = Some (JStr p) ->
  let matching :=
    admin !! "username" = Some (JStr u) /\ admin !! "password" = Some (JStr p) in
  (login_granted (admin_login req w) w <-> matching) /\
  (~ matching -> login_refused (admin_login req w) w).
Proof.
  intros Hbody Hfile Hu Hp matching.
  pose proof (admin_login_parsed req w data admin Hbody Hfile) as Hout.
  pose proof (credentials_match_strings data admin u p Hu Hp) as Hmatch.
  destruct (credentials_match data (JObj admin)).
  - split; [split; [intros _; by apply Hmatch|done]|].
    intros Hno. destruct Hno. by apply Hmatch.
  - split; [split|done].
    + intros Hyes. destruct (login_not_both _ _ Hyes Hout).
    + intros Hyes. apply Hmatch in Hyes. discriminate.
Qed.



(** C10. When the admin file parses to a non-empty object with neither a
    [username] nor a [password] key, a login whose body has neither field is
    granted a token: both sides of both comparisons are [None]. *)
Theorem C10_login_without_credentials (req : request) (w : world)
    (data admin : gmap string json) :
  body req = Some (JObj data) ->
  data !! "username" = None ->
  data !! "password" = None ->
  files w !! ADMIN_FILE = Some (JsonText (JObj admin)) ->
  admin <> ∅ ->
  admin !! "username" = None ->
  admin !! "password" = None ->
  login_granted (admin_login req w) w.
Proof.
  intros Hbody Hu Hp Hfile Hnonempty Hau Hap.
  pose proof (admin_login_outcome req w w data (JObj admin) Hbody
                (load_admin_parsed _ _ Hfile) (or_intror (ex_intro _ admin eq_refl)))
    as Hout.
  unfold credentials_match in Hout. rewrite Hu, Hp, Hau, Hap in Hout.
  cbn [default from_option id py_eq andb truthy] in Hout.
  rewrite bool_decide_eq_false_2 in Hout; [done|].
  by rewrite map_size_empty_iff.
Qed.

(** ** The bound on the log *)

Lemma keeps_ret {A : Type} (P : world -> Prop) (a : A) : keeps P (mret a : M A).
Proof. by intros w Hw. Qed.

Lemma keeps_raise {A : Type} (P : world -> Prop) (e : exn) : keeps P (raise e : M A).
Proof. by intros w Hw. Qed.

Lemma keeps_gets {A : Type} (P : world -> Prop) (f : world -> A) : keeps P (gets f).
Proof. by intros w Hw. Qed.

Lemma keeps_bind {A B : Type} (P : world -> Prop) (m : M A) (k : A -> M B) :
  keeps P m -> (forall a, keeps P (k a)) -> keeps P (m ≫= k).
Proof.
  intros Hm Hk w Hw. rewrite run_bind. specialize (Hm w Hw).
  destruct (m w) as [[a|e] w']; [by apply Hk|done].
Qed.

Lemma keeps_try_except {A : Type} (P : world -> Prop) (m : M A) (h : exn -> M A) :
  keeps P m -> (forall e, keeps P (h e)) -> keeps P (try_except m h).
Proof.
  intros Hm Hh w Hw. unfold try_except. specialize (Hm w Hw).
  destruct (m w) as [[a|e] w']; [done|by apply Hh].
Qed.

Lemma keeps_modify (P : world -> Prop) (f : world -> world) :
  (forall w, P w -> P (f w)) -> keeps P (modify f).
Proof. intros Hf w Hw. by apply Hf. Qed.

Lemma push_log_bounded (entry : string) (logs : list string) :
  Z.of_nat (length logs) <= MAX_LOGS ->
  Z.of_nat (length (push_log entry logs)) <= MAX_LOGS.
Proof.
  intros Hlen. unfold push_log.
  destruct (Z.gtb_spec (Z.of_nat (length (logs ++ [entry]))) MAX_LOGS) as [Hover|Hfits];
    [|done].
  rewrite length_app in Hover. cbn [length] in Hover.
  destruct logs as [|first rest]; cbn [app tail]; [cbn; unfold MAX_LOGS; lia|].
  rewrite length_app. cbn [length] in *. lia.
Qed.

Lemma add_log_bounded (message : string) : keeps log_bounded (add_log message).
Proof.
  intros w Hw. rewrite add_log_run. by apply push_log_bounded.
Qed.

Lemma datetime_now_bounded : keeps log_bounded datetime_now.
Proof. by intros w Hw. Qed.

Lemma token_urlsafe_bounded : keeps log_bounded token_urlsafe.
Proof. by intros w Hw. Qed.

Lemma comprehension_if_keeps (P : world -> Prop) (keep : json -> M bool) (xs : list json) :
  (forall x, keeps P (keep x)) -> keeps P (comprehension_if keep xs).
Proof.
  intros Hkeep. induction xs as [|x rest IH]; cbn [comprehension_if].
  - apply keeps_ret.
  - apply keeps_bind; [done|]. intros b.
    apply keeps_bind; [done|]. intros kept. apply keeps_ret.
Qed.

(** One step of the search for a [keeps log_bounded] proof: split a bind,
    close a leaf, or take a branch of the code apart. *)
Ltac keeps_step :=
  first
    [ apply keeps_ret
    | apply keeps_raise
    | apply keeps_gets
    | apply add_log_bounded
    | apply datetime_now_bounded
    | apply token_urlsafe_bounded
    | apply keeps_modify; intros ? ?; assumption
    | apply keeps_bind; [|intros ?]
    | apply keeps_try_except; [|intros ?]
    | apply comprehension_if_keeps; intros ?
    | match goal with
      | |- keeps _ (match ?x with _ => _ end) => destruct x
      end ].

Ltac keeps_log := repeat keeps_step.

Lemma clear_bounded :
  keeps log_bounded (modify (set_server_logs (fun _ => []))).
Proof. intros w _. by unfold log_bounded. Qed.

Lemma dispatch_bounded (e : endpoint) (req : request) :
  keeps log_bounded (dispatch e req).
Proof.
  destruct e; cbn [dispatch].
  - unfold log_ip. keeps_log.
  - unfold admin_login, request_json, dict_get, load_admin, os_path_exists,
      json_load, create_session_token, generate_token, print.
    keeps_log.
  - unfold verify_token, bearer_token, is_token_valid. keeps_log.
  - unfold admin_logout, bearer_token, revoke_token. keeps_log.
  - unfold get_logs. keeps_log.
  - unfold clear_logs. apply keeps_bind; [apply clear_bounded|intros ?]. keeps_log.
  - unfold get_library. keeps_log.
  - unfold add_library_link, request_json, dict_get, list_append, save_library,
      json_dump.
    keeps_log.
  - unfold delete_library_link, index_in_bounds, py_len, py_pop, save_library,
      json_dump, getitem_str.
    keeps_log.
  - unfold toggle_pin, index_in_bounds, py_len, link_at, link_set, getitem_int,
      getitem_str, setitem_str, not_in, save_library, json_dump.
    keeps_log.
  - unfold get_pinned, py_iter, dict_get. keeps_log.
Qed.

Lemma start_log_empty (fs : gmap string file_content)
    (clk : nat -> time) (rnd : nat -> string) :
  server_logs (start fs clk rnd) = [].
Proof.
  unfold start. set (w0 := World _ _ _ _ _ _ _ _ _).
  rewrite load_library_run. by destruct (files w0 !! LIBRARY_FILE) as [[|v| | |]|].
Qed.

Lemma reachable_bounded (w : world) : reachable w -> log_bounded w.
Proof.
  induction 1 as [fs clk rnd|e req w _ IH|msg w _ IH].
  - unfold log_bounded. by rewrite start_log_empty.
  - by apply dispatch_bounded.
  - by apply add_log_bounded.
Qed.

(** ** Appending many lines *)

Lemma last_n_all {A : Type} (n : nat) (l : list A) :
  (length l <= n)%nat -> last_n n l = l.
Proof. intros Hlen. unfold last_n. by replace (length l - n)%nat with 0%nat by lia. Qed.

Lemma last_n_app {A : Type} (n : nat) (a b : list A) :
  last_n n (last_n n a ++ b) = last_n n (a ++ b).
Proof.
  destruct (Nat.le_gt_cases (length a) n) as [Hfits|Hover].
  - by rewrite (last_n_all n a Hfits).
  - unfold last_n. rewrite !length_app, length_drop.
    replace (length a - (length a - n) + length b - n)%nat with (length b) by lia.
    replace (length a + length b - n)%nat with ((length a - n) + length b)%nat by lia.
    rewrite <- drop_drop. f_equal. rewrite drop_app_le; [done|lia].
Qed.

Lemma push_log_last_n (entry : string) (logs : list string) :
  Z.of_nat (length logs) <= MAX_LOGS ->
  push_log entry logs = last_n (Z.to_nat MAX_LOGS) (logs ++ [entry]).
Proof.
  intros Hlen. unfold push_log, last_n.
  destruct (Z.gtb_spec (Z.of_nat (length (logs ++ [entry]))) MAX_LOGS) as [Hover|Hfits];
    rewrite length_app in *; cbn [length] in *.
  - replace (length logs + 1 - Z.to_nat MAX_LOGS)%nat with 1%nat by lia.
    by destruct (logs ++ [entry]).
  - by replace (length logs + 1 - Z.to_nat MAX_LOGS)%nat with 0%nat by lia.
Qed.

Lemma add_logs_cons (message : string) (rest : list string) (w : world) :
  add_logs (message :: rest) w = add_logs rest (add_log message w).2.
Proof.
  unfold add_logs. cbn [foldr]. by rewrite run_add_log, add_log_run.
Qed.

Lemma log_entries_cons (clk : nat -> time) (n : nat) (message : string)
    (rest : list string) :
  log_entries clk n (message :: rest) =
    log_entry (clk n) message :: log_entries clk (S n) rest.
Proof.
  unfold log_entries. cbn [imap]. rewrite Nat.add_0_r. f_equal.
  apply imap_ext. intros k x _. cbn. by rewrite Nat.add_succ_r.
Qed.

Lemma add_logs_run (messages : list string) (w : world) :
  log_bounded w ->
  server_logs (add_logs messages w).2 =
    last_n (Z.to_nat MAX_LOGS)
      (server_logs w ++ log_entries (clock w) (clock_reads w) messages).
Proof.
  revert w. induction messages as [|message rest IH]; intros w Hw.
  - cbn. rewrite app_nil_r, last_n_all; [done|]. unfold log_bounded in Hw. lia.
  - rewrite add_logs_cons, IH by (by apply add_log_bounded).
    rewrite add_log_run. cbn [snd server_logs clock clock_reads set_console
      set_server_logs tick_clock].
    rewrite (push_log_last_n _ _ Hw), last_n_app, log_entries_cons.
    by rewrite <- app_assoc.
Qed.

(** C7. [add_log] keeps the log within 1000 lines, and so does every state
    the server reaches.  Appending 1001 messages to an empty log leaves 1000
    lines: the lines built for the messages, in order, the first one
    dropped. *)
Theorem C7_log_bound :
  (forall message w, log_bounded w -> log_bounded (add_log message w).2) /\
  (forall w, reachable w -> log_bounded w) /\
  (forall messages w,
     server_logs w = [] ->
     Z.of_nat (length messages) = MAX_LOGS + 1 ->
     server_logs (add_logs messages w).2 =
       drop 1 (log_entries (clock w) (clock_reads w) messages) /\
     Z.of_nat (length (server_logs (add_logs messages w).2)) = MAX_LOGS).
Proof.
  split; [|split].
  - intros message. apply add_log_bounded.
  - apply reachable_bounded.
  - intros messages w Hempty Hcount.
    assert (Hrun : server_logs (add_logs messages w).2 =
                   drop 1 (log_entries (clock w) (clock_reads w) messages)).
    { rewrite add_logs_run by (unfold log_bounded; by rewrite Hempty).
      rewrite Hempty. cbn [app]. unfold last_n, log_entries.
      rewrite length_imap. f_equal. unfold MAX_LOGS in *. lia. }
    split; [done|]. rewrite Hrun, length_drop. unfold log_entries.
    rewrite length_imap. unfold MAX_LOGS in *. lia.
Qed.

(** ** The library routes and the token map *)

Lemma ignores_ret {A : Type} (a : A) : ignores_tokens (mret a : M A).
Proof. by intros w tokens. Qed.

Lemma ignores_raise {A : Type} (e : exn) : ignores_tokens (raise e : M A).
Proof. by intros w tokens. Qed.

Lemma ignores_gets {A : Type} (f : world -> A) :
  (forall w tokens, f (set_active_tokens (fun _ => tokens) w) = f w) ->
  ignores_tokens (gets f).
Proof. intros Hf w tokens. unfold gets. by rewrite Hf. Qed.

Lemma ignores_modify (f : world -> world) :
  (forall w tokens,
     f (set_active_tokens (fun _ => tokens) w) =
     set_active_tokens (fun _ => tokens) (f w)) ->
  ignores_tokens (modify f).
Proof. intros Hf w tokens. unfold modify. by rewrite Hf. Qed.

Lemma ignores_bind {A B : Type} (m : M A) (k : A -> M B) :
  ignores_tokens m -> (forall a, ignores_tokens (k a)) -> ignores_tokens (m ≫= k).
Proof.
  intros Hm Hk w tokens. rewrite !run_bind, Hm.
  destruct (m w) as [[a|e] w']; cbn [fst snd]; [apply Hk|done].
Qed.

Lemma ignores_datetime_now : ignores_tokens datetime_now.
Proof. by intros w tokens. Qed.

Lemma ignores_add_log (message : string) : ignores_tokens (add_log message).
Proof. intros w tokens. by rewrite !add_log_run. Qed.

(** One step of the search for an [ignores_tokens] proof. *)
Ltac ignores_step :=
  first
    [ apply ignores_ret
    | apply ignores_raise
    | apply ignores_add_log
    | apply ignores_datetime_now
    | apply ignores_gets; intros ? ?; reflexivity
    | apply ignores_modify; intros ? ?; reflexivity
    | apply ignores_bind; [|intros ?]
    | match goal with
      | |- ignores_tokens (match ?x with _ => _ end) => destruct x
      end ].

Lemma add_library_link_ignores (req : request) :
  ignores_tokens (add_library_link req).
Proof.
  unfold add_library_link, request_json, dict_get, list_append, save_library,
    json_dump.
  repeat ignores_step.
Qed.

Lemma delete_library_link_ignores (index : Z) :
  ignores_tokens (delete_library_link index).
Proof.
  unfold delete_library_link, index_in_bounds, py_len, py_pop, save_library,
    json_dump, getitem_str.
  repeat ignores_step.
Qed.

Lemma toggle_pin_ignores (index : Z) : ignores_tokens (toggle_pin index).
Proof.
  unfold toggle_pin, index_in_bounds, py_len, link_at, link_set, getitem_int,
    getitem_str, setitem_str, not_in, save_library, json_dump.
  repeat ignores_step.
Qed.

Lemma set_active_tokens_same (w : world) :
  set_active_tokens (fun _ => active_tokens w) w = w.
Proof. by destruct w. Qed.

Lemma ignores_tokens_untouched {A : Type} (m : M A) (w : world) :
  ignores_tokens m -> active_tokens (m w).2 = active_tokens w.
Proof.
  intros Hm. specialize (Hm w (active_tokens w)).
  rewrite set_active_tokens_same in Hm. by rewrite Hm at 1.
Qed.

Lemma mutation_ignores (e : endpoint) (req : request) :
  mutates_library e = true -> ignores_tokens (dispatch e req).
Proof.
  destruct e; try discriminate; intros _; cbn [dispatch].
  - apply add_library_link_ignores.
  - apply delete_library_link_ignores.
  - apply toggle_pin_ignores.
Qed.

Lemma mutation_headers (e : endpoint) (req : request) (hs : gmap string string) :
  mutates_library e = true ->
  dispatch e (with_headers hs req) = dispatch e req.
Proof. by destruct e. Qed.


(** ** Adding a link *)

Lemma add_library_link_run (req : request) (w : world)
    (data : gmap string json) (l : list json) :
  body req = Some (JObj data) ->
  library_links w = JList l ->
  let name := default JNull (data !! "name") in
  let url := default JNull (data !! "url") in
  truthy name && truthy url = true ->
  let links := JList (l ++ [link_record name url]) in
  add_library_link req w =
    (Ok (jsonify [("status", JStr "success"); ("links", links)]),
     set_console
       (fun out => out ++ [log_entry (clock w (clock_reads w))
                             ("Added to library: " +:+ str name +:+ " - " +:+ str url)])
       (set_server_logs
          (push_log (log_entry (clock w (clock_reads w))
                       ("Added to library: " +:+ str name +:+ " - " +:+ str url)))
          (tick_clock
             (set_files (<[LIBRARY_FILE := JsonText links]>)
                (set_library_links (fun _ => links) w))))).
Proof.
  intros Hbody Hlinks name url Hvalid links.
  unfold add_library_link, request_json. rewrite Hbody. pyrun.
  fold name url. rewrite Hvalid. pyrun. rewrite Hlinks.
  unfold list_append, save_library, json_dump. pyrun.
  rewrite run_add_log. by pyrun.
Qed.

Lemma add_library_link_invalid (req : request) (w : world) (data : gmap string json) :
  body req = Some (JObj data) ->
  truthy (default JNull (data !! "name")) && truthy (default JNull (data !! "url")) = false ->
  add_library_link req w =
    (Ok (jsonify_status [("status", JStr "error");
                         ("message", JStr "Name and URL required")] 400), w).
Proof.
  intros Hbody Hinvalid. unfold add_library_link, request_json. rewrite Hbody.
  pyrun. rewrite Hinvalid. by pyrun.
Qed.

(** C4. For a body [{name, url}] with both fields non-empty, and a library
    that is a list, [add_library_link] answers success and [load_library]
    then reads back the old list with [{name, url, pinned: false}] at its
    end.  With an empty or missing [name] or [url] the answer is 400 and
    nothing changes. *)
Theorem C4_add_then_load (req : request) (w : world)
    (data : gmap string json) (l : list json) :
  body req = Some (JObj data) ->
  library_links w = JList l ->
  let name := default JNull (data !! "name") in
  let url := default JNull (data !! "url") in
  (truthy name = true -> truthy url = true ->
   let out := add_library_link req w in
   let loaded := l ++ [link_record name url] in
   out.1 = Ok (jsonify [("status", JStr "success"); ("links", JList loaded)]) /\
   library_links out.2 = JList loaded /\
   load_library out.2 = (Ok (JList loaded), out.2) /\
   last loaded = Some (link_record name url)) /\
  (truthy name = false \/ truthy url = false ->
   add_library_link req w =
     (Ok (jsonify_status [("status", JStr "error");
                          ("message", JStr "Name and URL required")] 400), w)).
Proof.
  intros Hbody Hlinks name url. split.
  - intros Hname Hurl out loaded. unfold out.
    rewrite (add_library_link_run req w data l Hbody Hlinks)
      by (fold name url; by rewrite Hname, Hurl).
    fold name url loaded. cbn [fst snd]. split; [done|]. split; [done|].
    split; [|apply last_snoc].
    apply load_library_parsed. cbn. apply lookup_insert_eq.
  - intros Hinvalid. apply (add_library_link_invalid req w data Hbody).
    fold name url. destruct Hinvalid as [->| ->]; [done|apply andb_false_r].
Qed.

(** C1. On the three routes that change the library, the answer and the
    world left behind are the same whatever headers the request carries
    (an [Authorization] header or none) and whatever the token map holds;
    the token map itself is left as it was.  So a request without an
    [Authorization] header, sent when no token exists, adds its link. *)
Theorem C1_library_mutation_ignores_auth (e : endpoint) (req : request)
    (w : world) (hs : gmap string string) (tokens : gmap string time) :
  mutates_library e = true ->
  let out := dispatch e req w in
  let out' := dispatch e (with_headers hs req)
                (set_active_tokens (fun _ => tokens) w) in
  (out'.1 = out.1 /\
   library_links out'.2 = library_links out.2 /\
   files out'.2 = files out.2 /\
   server_logs out'.2 = server_logs out.2 /\
   out'.2 = set_active_tokens (fun _ => tokens) out.2 /\
   active_tokens out.2 = active_tokens w) /\
  (forall data l,
     e = POST_api_library ->
     headers req !! "Authorization" = None ->
     active_tokens w = ∅ ->
     body req = Some (JObj data) ->
     library_links w = JList l ->
     truthy (default JNull (data !! "name")) &&
       truthy (default JNull (data !! "url")) = true ->
     library_links out.2 =
       JList (l ++ [link_record (default JNull (data !! "name"))
                      (default JNull (data !! "url"))])).
Proof.
  intros Hmut out out'. split.
  - unfold out'.
    rewrite (mutation_headers _ _ _ Hmut), (mutation_ignores e req Hmut w tokens).
    fold out. cbn [fst snd]. repeat split.
    by apply ignores_tokens_untouched, mutation_ignores.
  - intros data l -> _ _ Hbody Hlinks Hvalid. unfold out. cbn [dispatch].
    by rewrite (add_library_link_run req w data l Hbody Hlinks Hvalid).
Qed.

(** ** Indexing the library *)

Lemma norm_index_nat (i n : nat) :
  (i < n)%nat -> norm_index (Z.of_nat i) n = Some i.
Proof.
  intros Hlt. unfold norm_index.
  rewrite (proj2 (Z.ltb_ge _ _)) by lia.
  rewrite (proj2 (Z.leb_le _ _)), (proj2 (Z.ltb_lt _ _)) by lia.
  cbn [andb]. by rewrite Nat2Z.id.
Qed.

Lemma run_in_bounds {B : Type} (w : world) (l : list json) (i : nat)
    (k : bool -> M B) :
  library_links w = JList l ->
  (i < length l)%nat ->
  (index_in_bounds (Z.of_nat i) ≫= k) w = k true w.
Proof.
  intros Hlinks Hlt. unfold index_in_bounds.
  rewrite (proj2 (Z.leb_le _ _)) by lia. pyrun. rewrite Hlinks.
  unfold py_len. pyrun. by rewrite (proj2 (Z.ltb_lt _ _)) by lia.
Qed.

Lemma run_out_of_bounds {B : Type} (w : world) (l : list json) (i : nat)
    (k : bool -> M B) :
  library_links w = JList l ->
  (length l <= i)%nat ->
  (index_in_bounds (Z.of_nat i) ≫= k) w = k false w.
Proof.
  intros Hlinks Hge. unfold index_in_bounds.
  rewrite (proj2 (Z.leb_le _ _)) by lia. pyrun. rewrite Hlinks.
  unfold py_len. pyrun. by rewrite (proj2 (Z.ltb_ge _ _)) by lia.
Qed.

Lemma run_link_at {B : Type} (w : world) (l : list json) (i : nat) (v : json)
    (k : json -> M B) :
  library_links w = JList l ->
  l !! i = Some v ->
  (link_at (Z.of_nat i) ≫= k) w = k v w.
Proof.
  intros Hlinks Hi. unfold link_at. pyrun. rewrite Hlinks. unfold getitem_int.
  rewrite norm_index_nat by (by eapply lookup_lt_Some). rewrite Hi. by pyrun.
Qed.

Lemma run_link_set {B : Type} (w : world) (l : list json) (i : nat)
    (fields : gmap string json) (key : string) (v : json) (k : unit -> M B) :
  library_links w = JList l ->
  l !! i = Some (JObj fields) ->
  (link_set (Z.of_nat i) key v ≫= k) w =
    k tt (set_library_links (fun _ => JList (<[i := JObj (<[key := v]> fields)]> l)) w).
Proof.
  intros Hlinks Hi. unfold link_set. pyrun. rewrite Hlinks. unfold getitem_int.
  rewrite norm_index_nat by (by eapply lookup_lt_Some). rewrite Hi. pyrun.
  unfold setitem_str. by pyrun.
Qed.

Lemma run_getitem_str {B : Type} (m : gmap string json) (key : string) (v : json)
    (k : json -> M B) (w : world) :
  m !! key = Some v ->
  (getitem_str (JObj m) key ≫= k) w = k v w.
Proof. intros Hkey. unfold getitem_str. rewrite Hkey. by pyrun. Qed.

Lemma run_getitem_str_missing {B : Type} (m : gmap string json) (key : string)
    (k : json -> M B) (w : world) :
  m !! key = None ->
  (getitem_str (JObj m) key ≫= k) w = (Raise KeyError, w).
Proof. intros Hkey. unfold getitem_str. rewrite Hkey. by pyrun. Qed.

(** An index past the end: 400, and nothing changes. *)
Lemma out_of_range_rejected (w : world) (l : list json) (i : nat) :
  library_links w = JList l ->
  (length l <= i)%nat ->
  let invalid := jsonify_status [("status", JStr "error");
                                 ("message", JStr "Invalid index")] 400 in
  delete_library_link (Z.of_nat i) w = (Ok invalid, w) /\
  toggle_pin (Z.of_nat i) w = (Ok invalid, w).
Proof.
  intros Hlinks Hge invalid. unfold delete_library_link, toggle_pin.
  by rewrite !(run_out_of_bounds w l i _ Hlinks Hge).
Qed.

(** ** Toggling a pin *)

(** A record that has the flag: the flag is replaced by the negation of its
    truth value, the library saved, and the log line written if the record
    has a [name]. *)
Lemma toggle_pin_flagged (w : world) (l : list json) (i : nat)
    (fields : gmap string json) (flag : json) :
  library_links w = JList l ->
  l !! i = Some (JObj fields) ->
  fields !! "pinned" = Some flag ->
  let toggled := <["pinned" := JBool (negb (truthy flag))]> fields in
  let w' := (toggle_pin (Z.of_nat i) w).2 in
  library_links w' = JList (<[i := JObj toggled]> l) /\
  files w' = <[LIBRARY_FILE := JsonText (library_links w')]> (files w).
Proof.
  intros Hlinks Hi Hflag toggled w'. subst w'.
  pose proof (lookup_lt_Some _ _ _ Hi) as Hlt.
  unfold toggle_pin. rewrite (run_in_bounds w l i _ Hlinks Hlt).
  rewrite (run_link_at w l i _ _ Hlinks Hi). unfold not_in. pyrun.
  rewrite Hflag, bool_decide_eq_false_2 by done. pyrun.
  rewrite (run_link_at w l i _ _ Hlinks Hi), (run_getitem_str _ _ _ _ _ Hflag).
  rewrite (run_link_set w l i fields _ _ _ Hlinks Hi). fold toggled.
  set (l1 := <[i := JObj toggled]> l). set (w1 := set_library_links _ w).
  assert (Hi1 : l1 !! i = Some (JObj toggled)) by (by apply list_lookup_insert_eq).
  assert (Hpin : toggled !! "pinned" = Some (JBool (negb (truthy flag))))
    by apply lookup_insert_eq.
  unfold save_library, json_dump. pyrun. set (w2 := set_files _ w1).
  rewrite (run_link_at w2 l1 i _ _ eq_refl Hi1), (run_getitem_str _ _ _ _ _ Hpin).
  rewrite (run_link_at w2 l1 i _ _ eq_refl Hi1).
  destruct (toggled !! "name") as [name|] eqn:Hname.
  - rewrite (run_getitem_str _ _ _ _ _ Hname), run_add_log. by pyrun.
  - by rewrite (run_getitem_str_missing _ _ _ _ Hname).
Qed.

(** A record without the flag: [pinned = False] is stored first, and the
    toggle goes on as if the record had come with it. *)
Lemma toggle_pin_unflagged (w : world) (l : list json) (i : nat)
    (fields : gmap string json) :
  library_links w = JList l ->
  l !! i = Some (JObj fields) ->
  fields !! "pinned" = None ->
  toggle_pin (Z.of_nat i) w =
  toggle_pin (Z.of_nat i)
    (set_library_links
       (fun _ => JList (<[i := JObj (<["pinned" := JBool false]> fields)]> l)) w).
Proof.
  intros Hlinks Hi Hflag.
  pose proof (lookup_lt_Some _ _ _ Hi) as Hlt.
  set (fields0 := <["pinned" := JBool false]> fields).
  set (l0 := <[i := JObj fields0]> l). set (w0 := set_library_links _ w).
  assert (Hi0 : l0 !! i = Some (JObj fields0)) by (by apply list_lookup_insert_eq).
  assert (Hlt0 : (i < length l0)%nat) by (by eapply lookup_lt_Some).
  unfold toggle_pin.
  rewrite (run_in_bounds w l i _ Hlinks Hlt), (run_in_bounds w0 l0 i _ eq_refl Hlt0).
  rewrite (run_link_at w l i _ _ Hlinks Hi), (run_link_at w0 l0 i _ _ eq_refl Hi0).
  assert (Hflag0 : fields0 !! "pinned" = Some (JBool false))
    by apply lookup_insert_eq.
  unfold not_in. pyrun. rewrite Hflag, Hflag0.
  rewrite bool_decide_eq_true_2, bool_decide_eq_false_2 by done.
  by rewrite (run_link_set w l i fields _ _ _ Hlinks Hi).
Qed.

(** The library after one toggle. *)
Lemma toggle_pin_links (w : world) (l : list json) (i : nat)
    (fields : gmap string json) :
  library_links w = JList l ->
  l !! i = Some (JObj fields) ->
  let toggled := <["pinned" := JBool (negb (truthy (pinned_flag fields)))]> fields in
  let w' := (toggle_pin (Z.of_nat i) w).2 in
  library_links w' = JList (<[i := JObj toggled]> l) /\
  files w' = <[LIBRARY_FILE := JsonText (library_links w')]> (files w).
Proof.
  intros Hlinks Hi. unfold pinned_flag.
  destruct (fields !! "pinned") as [flag|] eqn:Hflag; cbn [default from_option id].
  - by apply toggle_pin_flagged.
  - rewrite (toggle_pin_unflagged w l i fields Hlinks Hi Hflag).
    pose proof (lookup_lt_Some _ _ _ Hi) as Hlt.
    set (fields0 := <["pinned" := JBool false]> fields).
    destruct (toggle_pin_flagged
                (set_library_links (fun _ => JList (<[i := JObj fields0]> l)) w)
                (<[i := JObj fields0]> l) i fields0 (JBool false) eq_refl
                (list_lookup_insert_eq _ _ _ Hlt) (lookup_insert_eq _ _ _))
      as [Hlinks' Hfiles'].
    unfold fields0 in Hlinks'.
    rewrite list_insert_insert_eq, insert_insert_eq in Hlinks'.
    by split.
Qed.

(** C5. Two toggles of an in-bounds record put its [pinned] flag back: the
    flag ends as the truth value it started with, so a boolean or missing
    flag reads as before; every other field and every other record stay as
    they were, and a library whose record carried a boolean flag is the same
    list again. *)
Theorem C5_toggle_pin_twice (w : world) (l : list json) (i : nat)
    (fields : gmap string json) :
  library_links w = JList l ->
  l !! i = Some (JObj fields) ->
  let w2 := (toggle_pin (Z.of_nat i) (toggle_pin (Z.of_nat i) w).2).2 in
  exists (l2 : list json) (fields2 : gmap string json),
    library_links w2 = JList l2 /\
    l2 !! i = Some (JObj fields2) /\
    length l2 = length l /\
    (forall j, j <> i -> l2 !! j = l !! j) /\
    (forall key, key <> "pinned" -> fields2 !! key = fields !! key) /\
    pinned_flag fields2 = JBool (truthy (pinned_flag fields)) /\
    (is_link_record (JObj fields) = true -> pinned_flag fields2 = pinned_flag fields) /\
    (forall b, fields !! "pinned" = Some (JBool b) -> l2 = l).
Proof.
  intros Hlinks Hi w2.
  pose proof (lookup_lt_Some _ _ _ Hi) as Hlt.
  destruct (toggle_pin_links w l i fields Hlinks Hi) as [Hlinks1 _].
  set (fields1 := <["pinned" := JBool (negb (truthy (pinned_flag fields)))]> fields)
    in Hlinks1.
  assert (Hi1 : <[i := JObj fields1]> l !! i = Some (JObj fields1))
    by (by apply list_lookup_insert_eq).
  destruct (toggle_pin_links _ _ i fields1 Hlinks1 Hi1) as [Hlinks2 _].
  fold w2 in Hlinks2.
  assert (Hflag1 : pinned_flag fields1 = JBool (negb (truthy (pinned_flag fields))))
    by (unfold pinned_flag at 1, fields1; by rewrite lookup_insert_eq).
  rewrite Hflag1 in Hlinks2. cbn [truthy] in Hlinks2.
  rewrite negb_involutive, list_insert_insert_eq in Hlinks2.
  unfold fields1 in Hlinks2. rewrite insert_insert_eq in Hlinks2.
  set (fields2 := <["pinned" := JBool (truthy (pinned_flag fields))]> fields) in Hlinks2.
  assert (Hflag2 : pinned_flag fields2 = JBool (truthy (pinned_flag fields)))
    by (unfold pinned_flag at 1, fields2; by rewrite lookup_insert_eq).
  exists (<[i := JObj fields2]> l), fields2.
  split; [done|]. split; [by apply list_lookup_insert_eq|].
  split; [apply length_insert|].
  split; [intros j Hj; by apply list_lookup_insert_ne|].
  split; [intros key Hkey; by apply lookup_insert_ne|].
  split; [done|]. split.
  - intros Hrecord. rewrite Hflag2. unfold pinned_flag. cbn in Hrecord.
    destruct (fields !! "pinned") as [[]|]; try discriminate; done.
  - intros b Hb. unfold fields2, pinned_flag. rewrite Hb. cbn [default from_option id truthy].
    rewrite (insert_id fields "pinned" (JBool b) Hb). by apply list_insert_id.
Qed.

(** ** Listing the pinned links *)

Lemma comprehension_objects (l : list json) (w : world) :
  forallb is_object l = true ->
  comprehension_if
    (fun link => flag ← dict_get link "pinned" (JBool false); mret (truthy flag)) l w =
    (Ok (List.filter listed l), w).
Proof.
  induction l as [|link rest IH]; intros Hobjects; [done|].
  cbn [forallb] in Hobjects. apply andb_true_iff in Hobjects as [Hlink Hrest].
  destruct link; try discriminate. cbn [comprehension_if List.filter listed].
  pyrun. rewrite run_bind, (IH Hrest). pyrun. unfold pinned_flag.
  by destruct (truthy _).
Qed.

Lemma get_pinned_run (w : world) (l : list json) :
  library_links w = JList l ->
  forallb is_object l = true ->
  get_pinned w = (Ok (jsonify [("links", JList (List.filter listed l))]), w).
Proof.
  intros Hlinks Hobjects. unfold get_pinned. pyrun. rewrite Hlinks.
  unfold py_iter. pyrun. rewrite run_bind, (comprehension_objects _ _ Hobjects).
  by pyrun.
Qed.

Lemma link_record_is_object (link : json) :
  is_link_record link = true -> is_object link = true.
Proof. by destruct link. Qed.

Lemma link_record_listed (link : json) :
  is_link_record link = true -> listed link = is_pinned link.
Proof.
  destruct link; try discriminate. cbn. unfold pinned_flag.
  by destruct (m !! "pinned") as [[| [] | | | | |]|].
Qed.

Lemma filter_listed_records (l : list json) :
  forallb is_link_record l = true ->
  List.filter listed l = List.filter is_pinned l.
Proof.
  intros Hrecords. apply List.filter_ext_in. intros link Hin.
  apply link_record_listed. by apply (proj1 (forallb_forall _ _) Hrecords).
Qed.

Lemma records_are_objects (l : list json) :
  forallb is_link_record l = true -> forallb is_object l = true.
Proof.
  rewrite !forallb_forall. intros Hrecords link Hin.
  by apply link_record_is_object, Hrecords.
Qed.

(** C9. Toggling an in-bounds record that has no [pinned] flag leaves it
    with [pinned = true].  Over link records, [get_pinned] answers the
    records whose flag is [true], in their order in the library; a record
    without the flag is not among them. *)
Theorem C9_missing_flag_is_false (w : world) (l : list json) :
  library_links w = JList l ->
  (forall i fields,
     l !! i = Some (JObj fields) ->
     fields !! "pinned" = None ->
     library_links (toggle_pin (Z.of_nat i) w).2 =
       JList (<[i := JObj (<["pinned" := JBool true]> fields)]> l)) /\
  (forallb is_link_record l = true ->
   get_pinned w = (Ok (jsonify [("links", JList (List.filter is_pinned l))]), w) /\
   forall fields, fields !! "pinned" = None ->
     ~ In (JObj fields) (List.filter is_pinned l)).
Proof.
  intros Hlinks. split.
  - intros i fields Hi Hflag.
    destruct (toggle_pin_links w l i fields Hlinks Hi) as [Hlinks1 _].
    rewrite Hlinks1. unfold pinned_flag. by rewrite Hflag.
  - intros Hrecords. split.
    + rewrite (get_pinned_run w l Hlinks (records_are_objects _ Hrecords)).
      by rewrite (filter_listed_records _ Hrecords).
    + intros fields Hflag Hin. apply List.filter_In in Hin as [_ Hpinned].
      cbn in Hpinned. by rewrite Hflag in Hpinned.
Qed.

(** ** Deleting a link *)

Lemma delete_library_link_links (w : world) (l : list json) (i : nat) (removed : json) :
  library_links w = JList l ->
  l !! i = Some removed ->
  let w' := (delete_library_link (Z.of_nat i) w).2 in
  library_links w' = JList (delete i l) /\
  files w' = <[LIBRARY_FILE := JsonText (JList (delete i l))]> (files w).
Proof.
  intros Hlinks Hi w'. subst w'.
  pose proof (lookup_lt_Some _ _ _ Hi) as Hlt.
  unfold delete_library_link. rewrite (run_in_bounds w l i _ Hlinks Hlt).
  pyrun. rewrite Hlinks. unfold py_pop. rewrite (norm_index_nat _ _ Hlt), Hi.
  pyrun. unfold save_library, json_dump. pyrun. cbn [fst snd].
  unfold getitem_str.
  destruct removed as [| | | | | |m]; pyrun; try done.
  destruct (m !! "name"); pyrun; [rewrite run_add_log; pyrun|]; done.
Qed.

(** C6, as the code has it.  After the record at an in-bounds index is
    deleted, [get_pinned] answers the listed records of the library without
    that position, in order; the deleted record is among them only if an
    equal record sits at another index. *)
Theorem C6_pinned_after_delete (w : world) (l : list json) (i : nat) (removed : json) :
  library_links w = JList l ->
  l !! i = Some removed ->
  forallb is_object l = true ->
  let w' := (delete_library_link (Z.of_nat i) w).2 in
  library_links w' = JList (delete i l) /\
  get_pinned w' = (Ok (jsonify [("links", JList (List.filter listed (delete i l)))]), w') /\
  (~ In removed (delete i l) -> ~ In removed (List.filter listed (delete i l))).
Proof.
  intros Hlinks Hi Hobjects w'.
  destruct (delete_library_link_links w l i removed Hlinks Hi) as [Hlinks' _].
  fold w' in Hlinks'. split; [done|]. split.
  - apply (get_pinned_run w' _ Hlinks').
    apply forallb_forall. intros link Hin.
    apply (proj1 (forallb_forall _ _) Hobjects).
    apply list_elem_of_In. apply list_elem_of_In in Hin.
    by apply list_elem_of_delete_inv in Hin.
  - intros Hgone Hin. apply Hgone. by apply List.filter_In in Hin as [? _].
Qed.

End Properties.

(** * The rest of the program: properties *)

Section MoreProperties.

Context `{Runtime}.

(** ** Splitting a header *)

Lemma split_from_pieces (sep s : string) (skip : nat) (cur : string) :
  exists piece rest, split_from sep s skip cur = piece :: rest.
Proof.
  revert skip cur. induction s as [|c s IH]; intros skip cur; cbn [split_from].
  - by exists cur, [].
  - destruct skip as [|k]; [|apply IH].
    destruct (String.prefix sep (String c s)); [by eexists _, _|apply IH].
Qed.

Lemma split_prefix_two (sep s : string) :
  s <> "" -> String.prefix sep s = true ->
  exists second rest, split sep s = "" :: second :: rest.
Proof.
  intros Hs Hprefix. destruct s as [|c s]; [done|].
  unfold split. cbn [split_from]. rewrite Hprefix.
  destruct (split_from_pieces sep s (String.length sep - 1) "") as (second & rest & ->).
  by exists second, rest.
Qed.

Lemma append_nil_r (s : string) : s +:+ "" = s.
Proof.
  induction s as [|c s IH]; [done|].
  change (String c s +:+ "") with (String c (s +:+ "")). by rewrite IH.
Qed.

Lemma append_assoc (a b c : string) : (a +:+ b) +:+ c = a +:+ (b +:+ c).
Proof.
  induction a as [|x a IH]; [done|].
  change ((String x a +:+ b) +:+ c) with (String x ((a +:+ b) +:+ c)).
  by rewrite IH.
Qed.

Lemma split_from_free (sep s cur : string) :
  contains sep s = false -> split_from sep s 0 cur = [cur +:+ s].
Proof.
  revert cur. induction s as [|c s IH]; intros cur Hfree.
  - cbn [split_from]. by rewrite append_nil_r.
  - cbn [contains] in Hfree. apply orb_false_iff in Hfree as [Hhere Hlater].
    cbn [split_from]. rewrite Hhere, (IH _ Hlater), append_assoc. done.
Qed.

Lemma prefix_append (s t : string) : String.prefix s (s +:+ t) = true.
Proof.
  induction s as [|c s IH]; [by destruct t|].
  change (String c s +:+ t) with (String c (s +:+ t)). cbn [String.prefix].
  by destruct (Ascii.ascii_dec c c).
Qed.

Lemma split_from_skip (sep a t cur : string) :
  split_from sep (a +:+ t) (String.length a) cur = split_from sep t 0 cur.
Proof.
  induction a as [|c a IH]; [done|].
  change (String c a +:+ t) with (String c (a +:+ t)). by cbn [split_from String.length].
Qed.

Lemma split_separator_first (c : Ascii.ascii) (sep t : string) :
  split (String c sep) (String c sep +:+ t) = "" :: split_from (String c sep) t 0 "".
Proof.
  unfold split. pose proof (prefix_append (String c sep) t) as Hprefix.
  change (String c sep +:+ t) with (String c (sep +:+ t)) in *.
  cbn [split_from]. rewrite Hprefix.
  replace (String.length (String c sep) - 1)%nat with (String.length sep)
    by (cbn [String.length]; lia).
  by rewrite split_from_skip.
Qed.

(** The token written after ["Bearer "] is the token read back, as long as
    it does not itself contain ["Bearer "]. *)
Lemma bearer_token_header (token : string) (w : world) :
  contains "Bearer " token = false ->
  bearer_token (bearer_header token) w = (Ok token, w).
Proof.
  intros Hfree. unfold bearer_token, bearer_header.
  rewrite (split_separator_first _ _ token).
  by rewrite (split_from_free _ _ _ Hfree).
Qed.

Lemma is_bearer_header (token : string) :
  is_bearer (Some (bearer_header token)) = true.
Proof.
  unfold is_bearer, startswith, bearer_header. rewrite prefix_append.
  by rewrite bool_decide_eq_false_2.
Qed.

(** ** Revoking, verifying, logging out *)

Lemma revoke_token_run (token : string) (w : world) :
  revoke_token token w =
    (Ok tt, if bool_decide (is_Some (active_tokens w !! token))
            then set_active_tokens (delete token) w else w).
Proof. unfold revoke_token. pyrun. by destruct (bool_decide _). Qed.

Lemma revoke_token_tokens (token : string) (w : world) :
  active_tokens (revoke_token token w).2 = delete token (active_tokens w).
Proof.
  rewrite revoke_token_run. cbn [snd].
  destruct (active_tokens w !! token) as [expiry|] eqn:Hlook.
  - by rewrite bool_decide_eq_true_2.
  - rewrite bool_decide_eq_false_2 by (by intros [? ?]). by rewrite delete_id.
Qed.

(** X1. [revoke_token] removes the token and no other; an absent token leaves
    the world as it is; afterwards the token no longer validates. *)
Theorem X1_revoke_token_removes (token : string) (w : world) :
  let w' := (revoke_token token w).2 in
  (revoke_token token w).1 = Ok tt /\
  active_tokens w' = delete token (active_tokens w) /\
  (forall other, other <> token -> active_tokens w' !! other = active_tokens w !! other) /\
  (active_tokens w !! token = None -> w' = w) /\
  is_token_valid token w' = (Ok false, w').
Proof.
  intros w'. pose proof (revoke_token_tokens token w) as Htokens. fold w' in Htokens.
  split; [by rewrite revoke_token_run|]. split; [done|]. split; [|split].
  - intros other Hother. rewrite Htokens. by apply lookup_delete_ne.
  - intros Habsent. unfold w'. rewrite revoke_token_run. cbn [snd].
    rewrite Habsent. by rewrite bool_decide_eq_false_2 by (by intros [? ?]).
  - apply is_token_valid_absent. rewrite Htokens. apply lookup_delete_eq.
Qed.

Lemma is_token_valid_returns (token : string) (w : world) :
  exists b, (is_token_valid token w).1 = Ok b.
Proof.
  destruct (active_tokens w !! token) as [expiry|] eqn:Hlook.
  - destruct (Z.lt_ge_cases (clock w (clock_reads w)) expiry) as [Hlive|Hdead].
    + exists true. by rewrite (is_token_valid_live _ _ _ Hlook Hlive).
    + exists false. by rewrite (is_token_valid_expired _ _ _ Hlook Hdead).
  - exists false. by rewrite (is_token_valid_absent _ _ Hlook).
Qed.

Lemma bearer_token_returns (h : string) (w : world) :
  is_bearer (Some h) = true -> exists token, bearer_token h w = (Ok token, w).
Proof.
  unfold is_bearer, startswith. intros Hbearer.
  apply andb_true_iff in Hbearer as [Hnonempty Hprefix].
  apply negb_true_iff, bool_decide_eq_false in Hnonempty.
  destruct (split_prefix_two _ _ Hnonempty Hprefix) as (token & rest & Hsplit).
  exists token. unfold bearer_token. by rewrite Hsplit.
Qed.

(** What [verify_token] answers for a request that carries [token]. *)
Lemma verify_token_carried (req : request) (token : string) (w : world) :
  carries req token ->
  contains "Bearer " token = false ->
  verify_token req w =
    match is_token_valid token w with
    | (Ok true, w') => (Ok ok_response, w')
    | (Ok false, w') => (Ok invalid_token_response, w')
    | (Raise e, w') => (Raise e, w')
    end.
Proof.
  intros Hcarries Hfree. unfold carries in Hcarries. unfold verify_token. cbv zeta.
  rewrite !Hcarries, is_bearer_header.
  cbn [negb default from_option id]. rewrite run_bind, (bearer_token_header _ _ Hfree).
  rewrite run_bind. by destruct (is_token_valid token w) as [[[]|e] w'].
Qed.

(** X2. [verify_token] never raises.  Without a bearer header it answers 401
    and touches nothing; with the header written for a token it answers 200
    exactly when the token is in the map and not yet expired, deletes an
    expired token, and leaves the world alone for an unknown one. *)
Theorem X2_verify_token_answers (req : request) (w : world) :
  let now := clock w (clock_reads w) in
  (exists answer, (verify_token req w).1 = Ok answer) /\
  (is_bearer (headers req !! "Authorization") = false ->
   verify_token req w = (Ok no_token_response, w)) /\
  (forall token,
     carries req token ->
     contains "Bearer " token = false ->
     (forall expiry, active_tokens w !! token = Some expiry -> now < expiry ->
        verify_token req w = (Ok ok_response, tick_clock w)) /\
     (forall expiry, active_tokens w !! token = Some expiry -> expiry <= now ->
        verify_token req w =
          (Ok invalid_token_response, set_active_tokens (delete token) (tick_clock w))) /\
     (active_tokens w !! token = None ->
        verify_token req w = (Ok invalid_token_response, w))).
Proof.
  intros now. split; [|split].
  - unfold verify_token.
    destruct (is_bearer (headers req !! "Authorization")) eqn:Hbearer; cbn [negb].
    + destruct (headers req !! "Authorization") as [h|]; [|discriminate].
      destruct (bearer_token_returns h w Hbearer) as [token Htoken].
      cbn [default from_option id]. rewrite run_bind, Htoken, run_bind.
      destruct (is_token_valid_returns token w) as [b Hb].
      destruct (is_token_valid token w) as [r w']. cbn [fst] in Hb. subst r.
      destruct b; by eexists.
    + by eexists.
  - intros Hbearer. unfold verify_token. by rewrite Hbearer.
  - intros token Hcarries Hfree.
    rewrite (verify_token_carried req token w Hcarries Hfree). split; [|split].
    + intros expiry Hlook Hlive. by rewrite (is_token_valid_live _ _ _ Hlook Hlive).
    + intros expiry Hlook Hdead. by rewrite (is_token_valid_expired _ _ _ Hlook Hdead).
    + intros Hlook. by rewrite (is_token_valid_absent _ _ Hlook).
Qed.

(** X3. [admin_logout] always answers success.  Without a bearer header it
    touches nothing; with the header written for a token, the token is gone
    from the map, one line is logged, and verifying the same token
    afterwards answers 401. *)
Theorem X3_admin_logout_revokes (req : request) (w : world) :
  let out := admin_logout req w in
  out.1 = Ok ok_response /\
  (is_bearer (headers req !! "Authorization") = false -> out.2 = w) /\
  (forall token,
     carries req token ->
     contains "Bearer " token = false ->
     active_tokens out.2 = delete token (active_tokens w) /\
     server_logs out.2 =
       push_log (log_entry (clock w (clock_reads w)) "Admin logged out") (server_logs w) /\
     verify_token req out.2 = (Ok invalid_token_response, out.2)).
Proof.
  intros out. subst out. unfold admin_logout. split; [|split].
  - destruct (is_bearer (headers req !! "Authorization")) eqn:Hbearer; [|by pyrun].
    destruct (headers req !! "Authorization") as [h|]; [|discriminate].
    destruct (bearer_token_returns h w Hbearer) as [token Htoken].
    cbn [default from_option id]. pyrun. rewrite run_bind, Htoken. cbv beta iota.
    pyrun. rewrite run_bind, revoke_token_run. cbv beta iota.
    rewrite run_add_log. by pyrun.
  - intros Hbearer. rewrite Hbearer. by pyrun.
  - intros token Hcarries Hfree. unfold carries in Hcarries. cbv zeta.
    rewrite !Hcarries, !is_bearer_header.
    cbn [default from_option id]. pyrun.
    rewrite run_bind, (bearer_token_header _ _ Hfree). cbv beta iota.
    pyrun. rewrite run_bind, revoke_token_run. cbv beta iota.
    rewrite run_add_log. pyrun.
    pose proof (revoke_token_tokens token w) as Htokens.
    rewrite revoke_token_run in Htokens. cbn [snd] in Htokens.
    set (w1 := if bool_decide _ then _ else _) in *.
    assert (Hsame : clock w1 = clock w /\ clock_reads w1 = clock_reads w /\
                    server_logs w1 = server_logs w)
      by (unfold w1; by destruct (bool_decide _)).
    destruct Hsame as (Hclock & Hreads & Hlogs).
    split; [done|]. split; [cbn; by rewrite Hclock, Hreads, Hlogs|].
    set (w2 := set_console _ _).
    assert (Hgone : active_tokens w2 !! token = None)
      by (cbn; rewrite Htokens; apply lookup_delete_eq).
    rewrite (verify_token_carried req token w2 Hcarries Hfree).
    by rewrite (is_token_valid_absent _ _ Hgone).
Qed.

(** ** From login to verification *)

Lemma admin_login_granted_run (req : request) (w : world)
    (data admin : gmap string json) :
  body req = Some (JObj data) ->
  files w !! ADMIN_FILE = Some (JsonText (JObj admin)) ->
  credentials_match data (JObj admin) = true ->
  let token := entropy w (entropy_reads w) in
  let line := log_entry (clock w (S (clock_reads w)))
                ("Admin login successful - Token: " +:+ substring 0 10 token +:+ "...") in
  admin_login req w =
    (Ok (login_success token),
     set_console (fun out => out ++ [line])
       (set_server_logs (push_log line)
          (tick_clock
             (set_active_tokens
                (<[token := clock w (clock_reads w) + timedelta_hours TOKEN_EXPIRY_HOURS]>)
                (tick_clock (tick_entropy w)))))).
Proof.
  intros Hbody Hfile Hmatch token line.
  rewrite (admin_login_run req w w data (JObj admin) Hbody
             (load_admin_parsed _ _ Hfile) (or_intror (ex_intro _ admin eq_refl))).
  rewrite Hmatch, run_bind, create_session_token_run. cbv beta iota.
  by rewrite run_add_log.
Qed.

(** X4. The token a successful login hands out verifies until 24 hours after it
    was issued, and no longer: login reads the clock twice (once for the
    expiry, once for its log line), so the check is the third reading. *)
Theorem X4_login_then_verify (req check : request) (w : world)
    (data admin : gmap string json) :
  body req = Some (JObj data) ->
  files w !! ADMIN_FILE = Some (JsonText (JObj admin)) ->
  credentials_match data (JObj admin) = true ->
  let token := entropy w (entropy_reads w) in
  contains "Bearer " token = false ->
  carries check token ->
  let out := admin_login req w in
  let issued := clock w (clock_reads w) in
  let checked := clock w (S (S (clock_reads w))) in
  out.1 = Ok (login_success token) /\
  (checked < issued + timedelta_hours 24 ->
   (verify_token check out.2).1 = Ok ok_response) /\
  (issued + timedelta_hours 24 <= checked ->
   (verify_token check out.2).1 = Ok invalid_token_response /\
   active_tokens (verify_token check out.2).2 !! token = None).
Proof.
  intros Hbody Hfile Hmatch token Hfree Hcarries out issued checked. subst out.
  rewrite (admin_login_granted_run req w data admin Hbody Hfile Hmatch).
  fold token. cbn [fst snd]. set (w' := set_console _ _).
  assert (Hheld : active_tokens w' !! token = Some (issued + timedelta_hours 24))
    by apply lookup_insert_eq.
  split; [done|].
  rewrite (verify_token_carried check token w' Hcarries Hfree). split.
  - intros Hlive. by rewrite (is_token_valid_live _ _ _ Hheld Hlive).
  - intros Hdead. rewrite (is_token_valid_expired _ _ _ Hheld Hdead).
    split; [done|]. apply lookup_delete_eq.
Qed.

Lemma digest_accepted (req : request) (w : world)
    (data : gmap string json) (u p : string) :
  body req = Some (JObj data) ->
  files w !! ADMIN_FILE = Some (JsonText (hashed_admin_data u p)) ->
  data !! "username" = Some (JStr u) ->
  data !! "password" = Some (JStr (hash_password p)) ->
  login_granted (admin_login req w) w.
Proof.
  intros Hbody Hfile Hu Hp.
  apply (admin_login_strings req w data _ u (hash_password p) Hbody Hfile Hu Hp).
  unfold list_to_map. cbn [foldr fst snd].
  by rewrite lookup_insert_eq, lookup_insert_ne, lookup_insert_eq.
Qed.

(** X5. After [hash_password.py] wrote the record for a password, the digest it
    stored is itself accepted as the password. *)
Theorem X5_stored_digest_logs_in (req : request) (w : world)
    (data : gmap string json) (u p : string) :
  body req = Some (JObj data) ->
  files w !! ADMIN_FILE = Some (JsonText (hashed_admin_data u p)) ->
  data !! "username" = Some (JStr u) ->
  data !! "password" = Some (JStr (hash_password p)) ->
  login_granted (admin_login req w) w.
Proof. exact (digest_accepted req w data u p). Qed.

Lemma plain_password_after_hashing (req : request) (w : world)
    (data : gmap string json) (u p : string) :
  body req = Some (JObj data) ->
  files w !! ADMIN_FILE = Some (JsonText (hashed_admin_data u p)) ->
  data !! "username" = Some (JStr u) ->
  data !! "password" = Some (JStr p) ->
  login_granted (admin_login req w) w <-> hash_password p = p.
Proof.
  intros Hbody Hfile Hu Hp.
  destruct (admin_login_strings req w data _ u p Hbody Hfile Hu Hp) as [-> _].
  unfold list_to_map. cbn [foldr fst snd].
  rewrite lookup_insert_eq, lookup_insert_ne, lookup_insert_eq by done.
  split; [by intros [_ [= ->]]|by intros ->].
Qed.

(** ** A body that is not an object *)

Lemma malformed_body_run (req : request) (w : world) :
  (body req = None ->
   admin_login req w = (Raise BadRequest, w) /\
   add_library_link req w = (Raise BadRequest, w)) /\
  (forall v, body req = Some v -> is_object v = false ->
   admin_login req w = (Raise AttributeError, w) /\
   add_library_link req w = (Raise AttributeError, w)).
Proof.
  split.
  - intros Hbody. unfold admin_login, add_library_link, request_json.
    rewrite Hbody. by pyrun.
  - intros v Hbody Hshape. unfold admin_login, add_library_link, request_json.
    rewrite Hbody. pyrun. by destruct v.
Qed.

(** X7. Without a JSON body, or with one that is not an object, the login and
    the add routes raise before they read or change anything. *)
Theorem X7_malformed_body_raises (req : request) (w : world) :
  (body req = None ->
   admin_login req w = (Raise BadRequest, w) /\
   add_library_link req w = (Raise BadRequest, w)) /\
  (forall v, body req = Some v -> is_object v = false ->
   admin_login req w = (Raise AttributeError, w) /\
   add_library_link req w = (Raise AttributeError, w)).
Proof. exact (malformed_body_run req w). Qed.

(** ** An admin file that is not an object *)

(** X6. When [admin.json] parses to a value that is not an object, a login with
    a JSON-object body is refused with 401 if the value is falsy ([null],
    [false], [0], [""], [[]]) and raises [AttributeError] if it is truthy;
    no token is issued either way. *)
Theorem X6_odd_admin_file (req : request) (w : world)
    (data : gmap string json) (admin_data : json) :
  body req = Some (JObj data) ->
  files w !! ADMIN_FILE = Some (JsonText admin_data) ->
  is_object admin_data = false ->
  let out := admin_login req w in
  active_tokens out.2 = active_tokens w /\
  (truthy admin_data = false -> out.1 = Ok login_failure) /\
  (truthy admin_data = true -> out = (Raise AttributeError, w)).
Proof.
  intros Hbody Hfile Hshape out. subst out.
  unfold admin_login, request_json. rewrite Hbody. pyrun.
  rewrite run_bind, (load_admin_parsed _ _ Hfile).
  destruct (truthy admin_data) eqn:Htruthy.
  - destruct admin_data; try discriminate; pyrun;
      (split; [done|]); (split; [discriminate|done]).
  - pyrun. rewrite run_add_log. pyrun. split; [done|]. split; [done|discriminate].
Qed.

(** ** The address [log_ip] records *)

Lemma prefix_nil (s : string) : String.prefix "" s = true.
Proof. by destruct s. Qed.

Lemma split_char_first (c : Ascii.ascii) (first rest cur : string) :
  contains (String c "") first = false ->
  split_from (String c "") (first +:+ String c "" +:+ rest) 0 cur =
    (cur +:+ first) :: split_from (String c "") rest 0 "".
Proof.
  change (String c "" +:+ rest) with (String c rest).
  revert cur. induction first as [|x first IH]; intros cur Hfree.
  - change ("" +:+ String c rest) with (String c rest). cbn [split_from String.prefix].
    destruct (Ascii.ascii_dec c c) as [_|Hne]; [|by destruct Hne].
    by rewrite prefix_nil, append_nil_r.
  - cbn [contains] in Hfree. apply orb_false_iff in Hfree as [Hhere Hlater].
    change (String x first +:+ String c rest) with (String x (first +:+ String c rest)).
    cbn [split_from]. cbn [String.prefix] in *.
    destruct (Ascii.ascii_dec c x) as [_|_].
    + by rewrite prefix_nil in Hhere.
    + by rewrite (IH _ Hlater), append_assoc.
Qed.

(** X8. [log_ip] never raises and logs one line.  The address it answers and
    logs is the peer address only when there is no [X-Forwarded-For] header
    (or an empty one); otherwise it is whatever the header says up to its
    first comma. *)
Theorem X8_log_ip_address (req : request) (w : world) :
  let out := log_ip req w in
  let forwarded := headers req !! "X-Forwarded-For" in
  exists ip,
    out.1 = Ok (jsonify [("status", JStr "success"); ("ip", JStr ip)]) /\
    server_logs out.2 =
      push_log (log_entry (clock w (clock_reads w)) ("IP logged: " +:+ ip)) (server_logs w) /\
    (forwarded = None \/ forwarded = Some "" -> ip = remote_addr req) /\
    (forall fwd, forwarded = Some fwd -> fwd <> "" -> contains "," fwd = false ->
       ip = fwd) /\
    (forall first rest, forwarded = Some (first +:+ "," +:+ rest) ->
       contains "," first = false -> ip = first).
Proof.
  intros out forwarded. subst out. unfold log_ip. fold forwarded.
  destruct forwarded as [fwd|] eqn:Hfwd.
  - destruct (decide (fwd = "")) as [->|Hnonempty].
    + rewrite bool_decide_eq_true_2 by done. pyrun. rewrite run_add_log. pyrun.
      exists (remote_addr req). split; [done|]. split; [done|]. split; [done|].
      split; [by intros ? [= <-] ?|].
      intros first rest [= Heq] _. by destruct first.
    + rewrite bool_decide_eq_false_2 by done.
      destruct (split_from_pieces "," fwd 0 "") as (ip & others & Hsplit).
      unfold split. rewrite Hsplit. cbn [lookup list_lookup]. pyrun.
      rewrite run_add_log. pyrun.
      exists ip. split; [done|]. split; [done|]. split.
      { intros [|[= ->]]; done. }
      split.
      * intros ? [= <-] _ Hfree. rewrite (split_from_free _ _ _ Hfree) in Hsplit.
        by injection Hsplit as <- _.
      * intros first rest [= ->] Hfree.
        rewrite (split_char_first _ _ _ _ Hfree) in Hsplit.
        by injection Hsplit as <- _.
  - pyrun. rewrite run_add_log. pyrun. exists (remote_addr req).
    split; [done|]. split; [done|]. split; [done|]. split; [done|done].
Qed.

(** ** The log routes *)

Lemma clear_logs_run (w : world) :
  let line := log_entry (clock w (clock_reads w)) "Logs cleared by admin" in
  clear_logs w =
    (Ok ok_response,
     set_console (fun out => out ++ [line])
       (set_server_logs (fun _ => [line]) (tick_clock w))).
Proof.
  intros line. unfold clear_logs. pyrun. rewrite run_add_log. by pyrun.
Qed.

(** X9. Whatever the log held, after [clear_logs] it holds one line, the one
    that records the clearing, and [get_logs] answers that line alone
    without changing anything. *)
Theorem X9_clear_logs_leaves_one_line (w : world) :
  let line := log_entry (clock w (clock_reads w)) "Logs cleared by admin" in
  let cleared := (clear_logs w).2 in
  (clear_logs w).1 = Ok ok_response /\
  server_logs cleared = [line] /\
  get_logs cleared = (Ok (jsonify [("logs", JList [JStr line])]), cleared) /\
  library_links cleared = library_links w /\
  active_tokens cleared = active_tokens w.
Proof.
  intros line cleared. subst cleared. rewrite clear_logs_run. fold line.
  cbn [fst snd]. split; [done|]. split; [done|]. split; [|done].
  unfold get_logs. by pyrun.
Qed.

(** ** Routes that never ask for a token *)

Lemma comprehension_if_ignores (keep : json -> M bool) (xs : list json) :
  (forall x, ignores_tokens (keep x)) -> ignores_tokens (comprehension_if keep xs).
Proof.
  intros Hkeep. induction xs as [|x rest IH]; cbn [comprehension_if].
  - apply ignores_ret.
  - apply ignores_bind; [done|]. intros b.
    apply ignores_bind; [done|]. intros kept. apply ignores_ret.
Qed.

(** Search for an [ignores_tokens] proof along the code. *)
Ltac ignores_auth :=
  repeat first
    [ apply ignores_ret
    | apply ignores_raise
    | apply ignores_add_log
    | apply ignores_gets; intros ? ?; reflexivity
    | apply ignores_modify; intros ? ?; reflexivity
    | apply ignores_bind; [|intros ?]
    | match goal with
      | |- ignores_tokens (match ?x with _ => _ end) => destruct x
      end ].

(** X10. Reading or clearing the log, and reading the library or the pinned
    links, give the same answer and leave the same world whatever headers
    the request carries and whatever the token map holds. *)
Theorem X10_state_routes_ignore_auth (e : endpoint) (req : request) (w : world)
    (hs : gmap string string) (tokens : gmap string time) :
  reads_state e = true ->
  dispatch e (with_headers hs req) (set_active_tokens (fun _ => tokens) w) =
    ((dispatch e req w).1, set_active_tokens (fun _ => tokens) (dispatch e req w).2) /\
  active_tokens (dispatch e req w).2 = active_tokens w.
Proof.
  intros Hreads.
  assert (Hignores : ignores_tokens (dispatch e req)).
  { destruct e; try discriminate; cbn [dispatch].
    - unfold get_logs. ignores_auth.
    - unfold clear_logs. ignores_auth.
    - unfold get_library. ignores_auth.
    - unfold get_pinned, py_iter. ignores_auth.
      apply comprehension_if_ignores. intros link. unfold dict_get.
      ignores_auth. }
  split; [|by apply ignores_tokens_untouched].
  replace (dispatch e (with_headers hs req)) with (dispatch e req) by (by destruct e).
  apply Hignores.
Qed.

(** ** What the routes leave alone *)

Lemma add_log_keeps (P : world -> Prop) (message : string) :
  (forall w a b, P w -> P (set_console a (set_server_logs b (tick_clock w)))) ->
  keeps P (add_log message).
Proof. intros Hframe w Hw. rewrite add_log_run. by apply Hframe. Qed.

(** Search for a [keeps] proof along the code; [leaf] closes the steps that
    change the world. *)
Ltac keeps_along leaf :=
  repeat first
    [ apply keeps_ret
    | apply keeps_raise
    | apply keeps_gets
    | leaf
    | apply keeps_bind; [|intros ?]
    | apply keeps_try_except; [|intros ?]
    | apply comprehension_if_keeps; intros ?
    | match goal with
      | |- keeps _ (match ?x with _ => _ end) => destruct x
      end ].

Ltac unfold_routes :=
  unfold log_ip, admin_login, verify_token, admin_logout, get_logs, clear_logs,
    get_library, add_library_link, delete_library_link, toggle_pin, get_pinned,
    request_json, dict_get, load_admin, os_path_exists, json_load,
    create_session_token, generate_token, print, bearer_token, is_token_valid,
    revoke_token, list_append, save_library, json_dump, index_in_bounds, py_len,
    py_pop, getitem_str, link_at, link_set, getitem_int, setitem_str, not_in, py_iter.

Ltac token_leaf :=
  first
    [ apply add_log_keeps; intros ? ? ? Hw; exact Hw
    | apply keeps_modify; intros ? Hw;
      first [ exact Hw | exact (transitivity (delete_subseteq _ _) Hw) ]
    | intros ? Hw; exact Hw ].

(** X11. No route but the login adds a token or moves an expiry: after any other
    request every token in the map was there before, with the same
    expiry. *)
Theorem X11_tokens_only_from_login (e : endpoint) (req : request) (w : world) :
  is_login e = false ->
  active_tokens (dispatch e req w).2 ⊆ active_tokens w.
Proof.
  intros Hroute.
  assert (Hkeeps : keeps (fun w' => active_tokens w' ⊆ active_tokens w) (dispatch e req)).
  { destruct e; try discriminate; cbn [dispatch]; unfold_routes;
      keeps_along token_leaf. }
  by apply Hkeeps.
Qed.

Ltac store_leaf :=
  first
    [ apply add_log_keeps; intros ? ? ? Hw; exact Hw
    | apply keeps_modify; intros ? Hw; exact Hw
    | intros ? Hw; exact Hw ].

Lemma other_routes_frame (e : endpoint) (req : request) (w : world) :
  mutates_library e = false ->
  library_links (dispatch e req w).2 = library_links w /\
  files (dispatch e req w).2 = files w.
Proof.
  intros Hroute.
  assert (Hkeeps : keeps (fun w' => library_links w' = library_links w /\
                                    files w' = files w) (dispatch e req)).
  { destruct e; try discriminate; cbn [dispatch]; unfold_routes;
      keeps_along store_leaf. }
  by apply Hkeeps.
Qed.

(** X12. Only add, delete and pin touch the library or a file: every other
    route, the login included, leaves both as they were, whatever it
    answers. *)
Theorem X12_other_routes_keep_store (e : endpoint) (req : request) (w : world) :
  mutates_library e = false ->
  library_links (dispatch e req w).2 = library_links w /\
  files (dispatch e req w).2 = files w.
Proof. exact (other_routes_frame e req w). Qed.

(** ** The file mirrors the library *)












(** ** Deleting, in full *)

Lemma delete_library_link_answer (w : world) (l : list json) (i : nat)
    (fields : gmap string json) :
  library_links w = JList l ->
  l !! i = Some (JObj fields) ->
  let out := delete_library_link (Z.of_nat i) w in
  match fields !! "name" with
  | Some name =>
      out.1 = Ok (links_response (JList (delete i l))) /\
      server_logs out.2 =
        push_log (log_entry (clock w (clock_reads w))
                    ("Removed from library: " +:+ str name)) (server_logs w)
  | None => out.1 = Raise KeyError /\ server_logs out.2 = server_logs w
  end.
Proof.
  intros Hlinks Hi out. subst out.
  pose proof (lookup_lt_Some _ _ _ Hi) as Hlt.
  unfold delete_library_link. rewrite (run_in_bounds w l i _ Hlinks Hlt).
  pyrun. rewrite Hlinks. unfold py_pop. rewrite (norm_index_nat _ _ Hlt), Hi.
  pyrun. unfold save_library, json_dump. pyrun. cbn [fst snd].
  destruct (fields !! "name") as [name|] eqn:Hname.
  - rewrite (run_getitem_str _ _ _ _ _ Hname), run_add_log. by pyrun.
  - by rewrite (run_getitem_str_missing _ _ _ _ Hname).
Qed.

(** X14. Deleting an in-bounds link shortens the library by one: the links before
    the index stay where they are, every later link moves down one place,
    and the file is rewritten with the new list.  A link with a name is
    answered with the new list and logged under that name. *)
Theorem X14_delete_shifts_later_links (w : world) (l : list json) (i : nat) (removed : json) :
  library_links w = JList l ->
  l !! i = Some removed ->
  let out := delete_library_link (Z.of_nat i) w in
  exists l',
    library_links out.2 = JList l' /\
    files out.2 !! LIBRARY_FILE = Some (JsonText (JList l')) /\
    S (length l') = length l /\
    (forall j, (j < i)%nat -> l' !! j = l !! j) /\
    (forall j, (i <= j)%nat -> l' !! j = l !! S j) /\
    (forall fields name, removed = JObj fields -> fields !! "name" = Some name ->
       out.1 = Ok (links_response (JList l')) /\
       server_logs out.2 =
         push_log (log_entry (clock w (clock_reads w))
                     ("Removed from library: " +:+ str name)) (server_logs w)).
Proof.
  intros Hlinks Hi out. subst out.
  destruct (delete_library_link_links w l i removed Hlinks Hi) as [Hlinks' Hfiles'].
  pose proof (lookup_lt_Some _ _ _ Hi) as Hlt.
  exists (delete i l). split; [done|]. split; [rewrite Hfiles'; apply lookup_insert_eq|].
  split; [rewrite length_delete by done; lia|].
  split; [intros j Hj; by apply list_lookup_delete_lt|].
  split; [intros j Hj; by apply list_lookup_delete_ge|].
  intros fields name -> Hname.
  pose proof (delete_library_link_answer w l i fields Hlinks Hi) as Hanswer.
  cbv zeta in Hanswer. by rewrite Hname in Hanswer.
Qed.

(** X15. An index at or past the end of the library is refused with 400 by
    both delete and pin, and nothing changes: no file is written and no line
    is logged. *)
Theorem X15_index_out_of_range (w : world) (l : list json) (i : nat) :
  library_links w = JList l ->
  (length l <= i)%nat ->
  delete_library_link (Z.of_nat i) w = (Ok invalid_index_response, w) /\
  toggle_pin (Z.of_nat i) w = (Ok invalid_index_response, w).
Proof. exact (out_of_range_rejected w l i). Qed.

(** ** A record without a name *)

Lemma toggle_pin_answer_flagged (w : world) (l : list json) (i : nat)
    (fields : gmap string json) (flag : json) :
  library_links w = JList l ->
  l !! i = Some (JObj fields) ->
  fields !! "pinned" = Some flag ->
  let out := toggle_pin (Z.of_nat i) w in
  let toggled := <["pinned" := JBool (negb (truthy flag))]> fields in
  match fields !! "name" with
  | Some name =>
      out.1 = Ok (links_response (JList (<[i := JObj toggled]> l))) /\
      server_logs out.2 =
        push_log (log_entry (clock w (clock_reads w))
                    ("Link " +:+ (if negb (truthy flag) then "pinned" else "unpinned")
                     +:+ ": " +:+ str name)) (server_logs w)
  | None => out.1 = Raise KeyError /\ server_logs out.2 = server_logs w
  end.
Proof.
  intros Hlinks Hi Hflag out toggled. subst out.
  pose proof (lookup_lt_Some _ _ _ Hi) as Hlt.
  unfold toggle_pin. rewrite (run_in_bounds w l i _ Hlinks Hlt).
  rewrite (run_link_at w l i _ _ Hlinks Hi). unfold not_in. pyrun.
  rewrite Hflag, bool_decide_eq_false_2 by done. pyrun.
  rewrite (run_link_at w l i _ _ Hlinks Hi), (run_getitem_str _ _ _ _ _ Hflag).
  rewrite (run_link_set w l i fields _ _ _ Hlinks Hi). fold toggled.
  set (l1 := <[i := JObj toggled]> l). set (w1 := set_library_links _ w).
  assert (Hi1 : l1 !! i = Some (JObj toggled)) by (by apply list_lookup_insert_eq).
  assert (Hpin : toggled !! "pinned" = Some (JBool (negb (truthy flag))))
    by apply lookup_insert_eq.
  assert (Hname1 : toggled !! "name" = fields !! "name")
    by (unfold toggled; by rewrite lookup_insert_ne).
  unfold save_library, json_dump. pyrun. set (w2 := set_files _ w1).
  rewrite (run_link_at w2 l1 i _ _ eq_refl Hi1), (run_getitem_str _ _ _ _ _ Hpin).
  rewrite (run_link_at w2 l1 i _ _ eq_refl Hi1).
  destruct (fields !! "name") as [name|].
  - rewrite (run_getitem_str _ _ _ _ _ Hname1), run_add_log. by pyrun.
  - by rewrite (run_getitem_str_missing _ _ _ _ Hname1).
Qed.

(** The answer and the log line of one toggle, flag or no flag. *)
Lemma toggle_pin_answer (w : world) (l : list json) (i : nat)
    (fields : gmap string json) :
  library_links w = JList l ->
  l !! i = Some (JObj fields) ->
  let out := toggle_pin (Z.of_nat i) w in
  let now_pinned := negb (truthy (pinned_flag fields)) in
  let toggled := <["pinned" := JBool now_pinned]> fields in
  match fields !! "name" with
  | Some name =>
      out.1 = Ok (links_response (JList (<[i := JObj toggled]> l))) /\
      server_logs out.2 =
        push_log (log_entry (clock w (clock_reads w))
                    ("Link " +:+ (if now_pinned then "pinned" else "unpinned")
                     +:+ ": " +:+ str name)) (server_logs w)
  | None => out.1 = Raise KeyError /\ server_logs out.2 = server_logs w
  end.
Proof.
  intros Hlinks Hi. unfold pinned_flag.
  destruct (fields !! "pinned") as [flag|] eqn:Hflag; cbn [default from_option id].
  - by apply toggle_pin_answer_flagged.
  - rewrite (toggle_pin_unflagged w l i fields Hlinks Hi Hflag).
    pose proof (lookup_lt_Some _ _ _ Hi) as Hlt.
    set (fields0 := <["pinned" := JBool false]> fields).
    pose proof (toggle_pin_answer_flagged
                  (set_library_links (fun _ => JList (<[i := JObj fields0]> l)) w)
                  (<[i := JObj fields0]> l) i fields0 (JBool false) eq_refl
                  (list_lookup_insert_eq _ _ _ Hlt) (lookup_insert_eq _ _ _))
      as Hanswer.
    assert (Hname0 : fields0 !! "name" = fields !! "name")
      by (unfold fields0; by rewrite lookup_insert_ne).
    cbv zeta in Hanswer. rewrite Hname0 in Hanswer.
    unfold fields0 in Hanswer. rewrite list_insert_insert_eq, insert_insert_eq in Hanswer.
    exact Hanswer.
Qed.

(** X16. Toggling a named link answers the library with the flag flipped, and
    the log line says [pinned] or [unpinned] according to the new value of
    the flag, not the old one. *)
Theorem X16_toggle_pin_reports_new_state (w : world) (l : list json) (i : nat)
    (fields : gmap string json) (name : json) :
  library_links w = JList l ->
  l !! i = Some (JObj fields) ->
  fields !! "name" = Some name ->
  let out := toggle_pin (Z.of_nat i) w in
  let now_pinned := negb (truthy (pinned_flag fields)) in
  out.1 = Ok (links_response
                (JList (<[i := JObj (<["pinned" := JBool now_pinned]> fields)]> l))) /\
  server_logs out.2 =
    push_log (log_entry (clock w (clock_reads w))
                ("Link " +:+ (if now_pinned then "pinned" else "unpinned")
                 +:+ ": " +:+ str name)) (server_logs w).
Proof.
  intros Hlinks Hi Hname.
  pose proof (toggle_pin_answer w l i fields Hlinks Hi) as Hanswer.
  cbv zeta in Hanswer. by rewrite Hname in Hanswer.
Qed.

(** X17. For a link without a [name], delete and pin do their work first and
    fail afterwards: the library is changed and saved, the request ends in
    [KeyError], and nothing is logged. *)
Theorem X17_nameless_link_fails_late (w : world) (l : list json) (i : nat)
    (fields : gmap string json) :
  library_links w = JList l ->
  l !! i = Some (JObj fields) ->
  fields !! "name" = None ->
  let deleted := delete_library_link (Z.of_nat i) w in
  let toggled := toggle_pin (Z.of_nat i) w in
  let flipped := <["pinned" := JBool (negb (truthy (pinned_flag fields)))]> fields in
  (deleted.1 = Raise KeyError /\
   library_links deleted.2 = JList (delete i l) /\
   files deleted.2 !! LIBRARY_FILE = Some (JsonText (JList (delete i l))) /\
   server_logs deleted.2 = server_logs w) /\
  (toggled.1 = Raise KeyError /\
   library_links toggled.2 = JList (<[i := JObj flipped]> l) /\
   files toggled.2 !! LIBRARY_FILE = Some (JsonText (JList (<[i := JObj flipped]> l))) /\
   server_logs toggled.2 = server_logs w).
Proof.
  intros Hlinks Hi Hname deleted toggled flipped. subst deleted toggled. split.
  - destruct (delete_library_link_links w l i _ Hlinks Hi) as [Hlinks' Hfiles'].
    pose proof (delete_library_link_answer w l i fields Hlinks Hi) as Hanswer.
    cbv zeta in Hanswer. rewrite Hname in Hanswer. destruct Hanswer as [Hraise Hlogs].
    split; [done|]. split; [done|]. split; [|done].
    rewrite Hfiles'. apply lookup_insert_eq.
  - destruct (toggle_pin_links w l i fields Hlinks Hi) as [Hlinks' Hfiles'].
    fold flipped in Hlinks'.
    pose proof (toggle_pin_answer w l i fields Hlinks Hi) as Hanswer.
    cbv zeta in Hanswer. rewrite Hname in Hanswer.
    destruct Hanswer as [Hraise Hlogs].
    split; [done|]. split; [done|]. split; [|done].
    rewrite Hfiles', Hlinks'. apply lookup_insert_eq.
Qed.

(** ** One bad element *)

Lemma comprehension_breaks (l : list json) (w : world) :
  forallb is_object l = false ->
  comprehension_if
    (fun link => flag ← dict_get link "pinned" (JBool false); mret (truthy flag)) l w =
    (Raise AttributeError, w).
Proof.
  induction l as [|link rest IH]; intros Hbad; [discriminate|].
  cbn [forallb] in Hbad. cbn [comprehension_if].
  destruct link as [| | | | | |fields]; try (by pyrun).
  cbn [is_object andb] in Hbad. pyrun. by rewrite run_bind, (IH Hbad).
Qed.

(** X18. If any element of the library list is not an object, [get_pinned]
    raises [AttributeError], however many proper links there are, and
    leaves the world as it is. *)
Theorem X18_get_pinned_breaks (w : world) (l : list json) :
  library_links w = JList l ->
  forallb is_object l = false ->
  get_pinned w = (Raise AttributeError, w).
Proof.
  intros Hlinks Hbad. unfold get_pinned. pyrun. rewrite Hlinks.
  unfold py_iter. pyrun. by rewrite run_bind, (comprehension_breaks _ _ Hbad).
Qed.

(** ** The console sees every log line *)

Lemma push_log_subset (entry line : string) (logs : list string) :
  line ∈ push_log entry logs -> line ∈ logs ++ [entry].
Proof.
  unfold push_log. destruct (_ >? _); [|done].
  destruct (logs ++ [entry]) as [|first rest]; cbn [tail]; [done|].
  intros Hin. by right.
Qed.

Lemma add_log_on_console (message : string) : keeps logs_on_console (add_log message).
Proof.
  intros w Hw line. rewrite add_log_run. cbn.
  intros Hin. apply push_log_subset, elem_of_app in Hin as [Hin|Hin].
  - apply elem_of_app. left. by apply Hw.
  - apply elem_of_app. by right.
Qed.

Ltac console_leaf :=
  first
    [ apply add_log_on_console
    | apply keeps_modify; intros ? Hw;
      first [ exact Hw
            | intros ? Hin; apply elem_of_app; left; exact (Hw _ Hin)
            | intros ? Hin; by apply elem_of_nil in Hin ]
    | intros ? Hw; exact Hw ].

(** X19. Every line in the log buffer has also been printed: clearing or
    trimming the buffer loses lines from the admin view, never from the
    console. *)
Theorem X19_log_lines_were_printed (w : world) :
  reachable w -> forall line, line ∈ server_logs w -> line ∈ console w.
Proof.
  induction 1 as [fs clk rnd|e req w _ IH|msg w _ IH].
  - intros line. rewrite start_log_empty. by intros Hin%elem_of_nil.
  - assert (Hkeeps : keeps logs_on_console (dispatch e req)).
    { destruct e; cbn [dispatch]; unfold_routes; keeps_along console_leaf. }
    by apply Hkeeps.
  - by apply add_log_on_console.
Qed.

End MoreProperties.

(** * The password utility: properties *)

Section UtilityProperties.

Context `{Runtime} `{Utility.Printer}.

Lemma lower_char_y (c : Ascii.ascii) :
  Utility.lower_char c = Ascii.ascii_of_nat 121 ->
  c = Ascii.ascii_of_nat 121 \/ c = Ascii.ascii_of_nat 89.
Proof.
  destruct c as [[] [] [] [] [] [] [] []]; vm_compute; intros Heq;
    first [by left | by right | discriminate Heq].
Qed.

(** Only [y] and [Y] lower to [y]. *)
Lemma lower_is_y (s : string) :
  Utility.lower s = "y" <-> s = "y" \/ s = "Y".
Proof.
  split; [|by intros [-> | ->]].
  destruct s as [|c [|c' s]]; [discriminate| |discriminate].
  unfold Utility.lower. cbn. intros [= Hc].
  destruct (lower_char_y c Hc) as [-> | ->]; [by left|by right].
Qed.

Lemma main_run_three_lines (t : Utility.terminal)
    (typed_name typed_password answer : string) (rest : list string) :
  Utility.stdin t = typed_name :: typed_password :: answer :: rest ->
  let username := Utility.strip typed_name in
  let password := Utility.strip typed_password in
  let out := Utility.main t in
  out.1 = Utility.Returned /\
  (username <> "" /\ password <> "" /\
   (Utility.strip answer = "y" \/ Utility.strip answer = "Y") ->
   Utility.disk out.2 =
     <[ADMIN_FILE := JsonText (hashed_admin_data username password)]> (Utility.disk t)) /\
  (username = "" \/ password = "" \/
   (Utility.strip answer <> "y" /\ Utility.strip answer <> "Y") ->
   Utility.disk out.2 = Utility.disk t).
Proof.
  intros Hstdin username password out. subst out.
  unfold Utility.main, Utility.input, Utility.print. cbn. rewrite Hstdin. cbn.
  fold username password.
  destruct (decide (username = "")) as [Hu|Hu].
  { rewrite (bool_decide_eq_true_2 _ Hu). cbn.
    split; [done|]. split; [by intros [? _]|done]. }
  rewrite (bool_decide_eq_false_2 _ Hu).
  destruct (decide (password = "")) as [Hp|Hp].
  { rewrite (bool_decide_eq_true_2 _ Hp). cbn.
    split; [done|]. split; [by intros (_ & ? & _)|done]. }
  rewrite (bool_decide_eq_false_2 _ Hp). cbn.
  destruct (decide (Utility.lower (Utility.strip answer) = "y")) as [Hy|Hy].
  - rewrite (bool_decide_eq_true_2 _ Hy). cbn. split; [done|]. split; [done|].
    apply lower_is_y in Hy. intros [|[|[? ?]]]; [done|done|by destruct Hy].
  - rewrite (bool_decide_eq_false_2 _ Hy). cbn. split; [done|]. split; [|done].
    intros (_ & _ & Hanswer). destruct Hy. by apply lower_is_y.
Qed.

(** X20. With three lines typed, [main] returns.  It writes [admin.json] exactly
    when the name and the password are non-empty once stripped and the
    stripped answer is [y] or [Y]; the record it writes holds the stripped
    name and the digest of the stripped password, and no other file
    changes. *)
Theorem X20_main_writes_when_confirmed (t : Utility.terminal)
    (typed_name typed_password answer : string) (rest : list string) :
  Utility.stdin t = typed_name :: typed_password :: answer :: rest ->
  let username := Utility.strip typed_name in
  let password := Utility.strip typed_password in
  let out := Utility.main t in
  out.1 = Utility.Returned /\
  (username <> "" /\ password <> "" /\
   (Utility.strip answer = "y" \/ Utility.strip answer = "Y") ->
   Utility.disk out.2 =
     <[ADMIN_FILE := JsonText (hashed_admin_data username password)]> (Utility.disk t)) /\
  (username = "" \/ password = "" \/
   (Utility.strip answer <> "y" /\ Utility.strip answer <> "Y") ->
   Utility.disk out.2 = Utility.disk t).
Proof. exact (main_run_three_lines t typed_name typed_password answer rest). Qed.

(** X21. Whatever is typed, and however the run ends, [main] either leaves the
    files alone or writes [admin.json] with a non-empty user name and the
    digest of a non-empty password. *)
Theorem X21_main_never_writes_empty (t : Utility.terminal) :
  Utility.disk (Utility.main t).2 = Utility.disk t \/
  exists username password,
    username <> "" /\ password <> "" /\
    Utility.disk (Utility.main t).2 =
      <[ADMIN_FILE := JsonText (hashed_admin_data username password)]> (Utility.disk t).
Proof.
  unfold Utility.main, Utility.input, Utility.print. cbn.
  destruct (Utility.stdin t) as [|u [|p rest]]; cbn; [by left|by left|].
  destruct (decide (Utility.strip u = "")) as [Hu|Hu].
  { rewrite (bool_decide_eq_true_2 _ Hu). by left. }
  rewrite (bool_decide_eq_false_2 _ Hu).
  destruct (decide (Utility.strip p = "")) as [Hp|Hp].
  { rewrite (bool_decide_eq_true_2 _ Hp). by left. }
  rewrite (bool_decide_eq_false_2 _ Hp). cbn.
  destruct rest as [|a rest]; cbn; [by left|].
  destruct (bool_decide _); cbn; [|by left].
  right. by exists (Utility.strip u), (Utility.strip p).
Qed.

(** X22. The utility and the server together: once [main] has saved the record
    for a typed name and password, the server grants a login with that
    password only if the password is its own digest, and grants a login
    that sends the stored digest instead. *)
Theorem X22_utility_then_login (t : Utility.terminal) (w : world) (req : request)
    (typed_name typed_password answer : string) (rest : list string)
    (data : gmap string json) :
  Utility.stdin t = typed_name :: typed_password :: answer :: rest ->
  let username := Utility.strip typed_name in
  let password := Utility.strip typed_password in
  username <> "" -> password <> "" ->
  Utility.strip answer = "y" \/ Utility.strip answer = "Y" ->
  files w = Utility.disk (Utility.main t).2 ->
  body req = Some (JObj data) ->
  data !! "username" = Some (JStr username) ->
  (data !! "password" = Some (JStr password) ->
   (login_granted (admin_login req w) w <-> hash_password password = password)) /\
  (data !! "password" = Some (JStr (hash_password password)) ->
   login_granted (admin_login req w) w).
Proof.
  intros Hstdin username password Hu Hp Hanswer Hfiles Hbody Hname.
  destruct (main_run_three_lines t _ _ _ _ Hstdin) as (_ & Hwritten & _).
  rewrite (Hwritten (conj Hu (conj Hp Hanswer))) in Hfiles.
  fold username password in Hfiles.
  assert (Hfile : files w !! ADMIN_FILE =
                  Some (JsonText (hashed_admin_data username password)))
    by (rewrite Hfiles; apply lookup_insert_eq).
  split.
  - intros Hpassword.
    by apply (plain_password_after_hashing req w data username password).
  - intros Hpassword. by apply (digest_accepted req w data username password).
Qed.

End UtilityProperties.

(** * Worked examples *)

#[local] Existing Instance Sample.runtime.

(** A forged [Authorization] header and a stale token change nothing for
    [POST /api/library]. *)
Lemma C1_witness :
  let e := POST_api_library in
  let w := Sample.empty_server in
  let req := Sample.add_wiki in
  let hs : gmap string string := {[ "Authorization" := "Bearer not-a-token" ]} in
  let tokens : gmap string Z := {[ "Zm9vYmFyYmF6cXV4" := 86400000000 ]} in
  mutates_library e = true /\
  (dispatch e (with_headers hs req) (set_active_tokens (fun _ => tokens) w)).1 =
    (dispatch e req w).1 /\
  library_links (dispatch e (with_headers hs req)
                   (set_active_tokens (fun _ => tokens) w)).2 =
    library_links (dispatch e req w).2.
Proof.
  intros e w req hs tokens. split; [reflexivity|].
  pose proof (C1_library_mutation_ignores_auth e req w hs tokens eq_refl) as Hc.
  cbv zeta in Hc. destruct Hc as [(Hanswer & Hlinks & _) _].
  split; [exact Hanswer|exact Hlinks].
Defined.


(** A token valid at its first check, and one checked a day and a second
    after it was issued. *)
Lemma C3_witness :
  let w := Sample.empty_server in
  let issued := create_session_token w in
  let late := create_session_token (Sample.server [] Sample.admin_record Sample.slow_clk) in
  (is_token_valid "Zm9vYmFyYmF6cXV4" issued.2).1 = Ok true /\
  (is_token_valid "Zm9vYmFyYmF6cXV4" late.2).1 = Ok false /\
  is_token_valid "no-such-token" w = (Ok false, w).
Proof.
  intros w issued late. split; [|split].
  - destruct (proj2 (proj2 (proj2 (C3_is_token_valid "x" w))))
      as (fresh & Hfresh & _ & Hlive & _).
    injection Hfresh as <-. apply Hlive. reflexivity.
  - destruct (proj2 (proj2 (proj2
      (C3_is_token_valid "x" (Sample.server [] Sample.admin_record Sample.slow_clk)))))
      as (fresh & Hfresh & _ & _ & Hdead).
    injection Hfresh as <-. apply Hdead. discriminate.
  - apply (proj1 (proj2 (proj2 (C3_is_token_valid "no-such-token" w)))). reflexivity.
Defined.

(** Adding Wiki to an empty library, then reading the file back. *)
Lemma C4_witness :
  let out := add_library_link Sample.add_wiki Sample.empty_server in
  load_library out.2 =
    (Ok (JList [link_record (JStr "Wiki") (JStr "http://wiki")]), out.2).
Proof.
  intros out.
  exact (proj1 (proj2 (proj2 (proj1
    (C4_add_then_load Sample.add_wiki Sample.empty_server _ [] eq_refl eq_refl)
    eq_refl eq_refl)))).
Defined.

(** Pinning and unpinning News gives the library back. *)
Lemma C5_witness :
  let w := Sample.server [Sample.wiki; Sample.news] Sample.admin_record Sample.clk in
  exists l2 fields2,
    library_links (toggle_pin 1 (toggle_pin 1 w).2).2 = JList l2 /\
    l2 !! 1%nat = Some (JObj fields2) /\
    pinned_flag fields2 = JBool false /\
    l2 = [Sample.wiki; Sample.news].
Proof.
  intros w.
  destruct (C5_toggle_pin_twice w [Sample.wiki; Sample.news] 1
              (list_to_map [("name", JStr "News"); ("url", JStr "http://news");
                            ("pinned", JBool false)]) eq_refl eq_refl)
    as (l2 & fields2 & Hlinks & Hi & _ & _ & _ & Hflag & _ & Hsame).
  exists l2, fields2. split; [exact Hlinks|]. split; [exact Hi|].
  split; [exact Hflag|]. exact (Hsame false eq_refl).
Defined.

(** Deleting Wiki from [Wiki, News, Old] leaves no pinned link. *)
Lemma C6_witness :
  let l := [Sample.wiki; Sample.news; Sample.legacy] in
  let w' := (delete_library_link 0 (Sample.server l Sample.admin_record Sample.clk)).2 in
  library_links w' = JList [Sample.news; Sample.legacy] /\
  get_pinned w' = (Ok (jsonify [("links", JList [])]), w').
Proof.
  intros l w'.
  destruct (C6_pinned_after_delete (Sample.server l Sample.admin_record Sample.clk)
              l 0 Sample.wiki eq_refl eq_refl eq_refl)
    as (Hlinks & Hpinned & _).
  split; [exact Hlinks|exact Hpinned].
Defined.

(** 1001 messages into an empty log. *)
Lemma C7_witness :
  let messages := replicate 1001 "ping" in
  let w := Sample.empty_server in
  server_logs (add_logs messages w).2 =
    drop 1 (log_entries (clock w) (clock_reads w) messages) /\
  Z.of_nat (length (server_logs (add_logs messages w).2)) = MAX_LOGS.
Proof.
  intros messages w.
  apply (proj2 (proj2 C7_log_bound) messages w); reflexivity.
Defined.

(** No library file, a library file that is not JSON, and a library file
    that is not text: the single byte 0xFF. *)
Lemma C8_witness :
  let missing := World ∅ [] (JList []) ∅ [] Sample.clk 0 Sample.rnd 0 in
  let corrupt := World ∅ [] (JList []) {[ LIBRARY_FILE := Unparsable ]} []
                   Sample.clk 0 Sample.rnd 0 in
  let binary := World ∅ [] (JList []) {[ LIBRARY_FILE := Undecodable ]} []
                  Sample.clk 0 Sample.rnd 0 in
  load_library missing = (Ok (JList []), missing) /\
  ((load_library corrupt).1 = Ok (JList []) /\
   console (load_library corrupt).2 = ["library_data.json corrupted. Starting empty."]) /\
  load_library binary = (Raise UnicodeDecodeError, binary).
Proof.
  intros missing corrupt binary. split; [|split].
  - apply (proj1 (C8_load_library_corrupt_file missing)). reflexivity.
  - apply (proj1 (proj2 (C8_load_library_corrupt_file corrupt))). reflexivity.
  - apply (proj1 (proj2 (proj2 (proj2 (C8_load_library_corrupt_file binary))))).
    reflexivity.
Defined.

(** Toggling Old, which has no flag, pins it; only Wiki is listed before. *)
Lemma C9_witness :
  let l := [Sample.wiki; Sample.news; Sample.legacy] in
  let w := Sample.server l Sample.admin_record Sample.clk in
  library_links (toggle_pin 2 w).2 =
    JList (<[2%nat := JObj (<["pinned" := JBool true]>
                          (list_to_map [("name", JStr "Old"); ("url", JStr "http://old")]))]> l) /\
  get_pinned w = (Ok (jsonify [("links", JList (List.filter is_pinned l))]), w).
Proof.
  intros l w.
  destruct (C9_missing_flag_is_false w l eq_refl) as [Htoggle Hlist]. split.
  - apply (Htoggle 2%nat); reflexivity.
  - apply Hlist. reflexivity.
Defined.

(** An admin file without credentials lets an empty login in. *)
Lemma C10_witness :
  let w := Sample.server [] Sample.odd_admin_record Sample.clk in
  login_granted (admin_login Sample.empty_login w) w.
Proof.
  intros w.
  apply (C10_login_without_credentials Sample.empty_login w ∅
           (list_to_map [("note", JStr "to be filled in")]));
    try reflexivity.
  intros Hempty.
  apply (f_equal (fun m : gmap string json => m !! "note")) in Hempty.
  discriminate Hempty.
Defined.

(** Wiki is posted twice and both copies are pinned.  The first one is
    deleted, and [get_pinned] still answers a record equal to it. *)
Lemma C6_counterexample :
  let w := Sample.wiki_twice in
  let l := [Sample.wiki; Sample.wiki] in
  let removed := Sample.wiki in
  let listing := [Sample.wiki] in
  reachable w /\
  library_links w = JList l /\
  l !! 0%nat = Some removed /\
  (get_pinned (delete_library_link 0 w).2).1 = Ok (jsonify [("links", JList listing)]) /\
  In removed listing.
Proof.
  intros w l removed listing. split.
  - unfold w, Sample.wiki_twice. cbv zeta. do 4 apply reach_request. apply reach_start.
  - split; [vm_compute; reflexivity|]. split; [reflexivity|].
    split; [vm_compute; reflexivity|]. by left.
Defined.

(** [POST /api/library] with Wiki, then [GET /api/pinned]: nothing listed;
    after [POST /api/library/0/pin], one link named Wiki. *)
Example scenario_add_then_pin :
  let added := (dispatch POST_api_library Sample.add_wiki Sample.empty_server).2 in
  let pinned := (dispatch (POST_api_library_pin 0) Sample.add_wiki added).2 in
  (dispatch GET_api_pinned Sample.add_wiki added).1 =
    Ok (jsonify [("links", JList [])]) /\
  (dispatch GET_api_pinned Sample.add_wiki pinned).1 =
    Ok (jsonify [("links", JList [Sample.wiki])]).
Proof. split; vm_compute; reflexivity. Qed.

(** Deleting index 0 of a two-element library moves the other link to
    index 0. *)
Example scenario_delete_shifts :
  library_links
    (dispatch (DELETE_api_library 0) Sample.add_wiki
       (Sample.server [Sample.wiki; Sample.news] Sample.admin_record Sample.clk)).2 =
  JList [Sample.news].
Proof. vm_compute. reflexivity. Qed.

(** The wrong password: 401, and no token. *)
Example scenario_bad_login :
  login_refused (admin_login Sample.bad_login Sample.empty_server) Sample.empty_server.
Proof. split; vm_compute; reflexivity. Qed.

(** A record without [name]: the toggle is stored and saved, and the log
    line then fails with [KeyError]. *)
Example scenario_pin_without_name :
  let nameless := JObj (list_to_map [("url", JStr "http://x")]) in
  let out := toggle_pin 0 (Sample.server [nameless] Sample.admin_record Sample.clk) in
  out.1 = Raise KeyError /\
  library_links out.2 =
    JList [JObj (list_to_map [("url", JStr "http://x"); ("pinned", JBool true)])].
Proof. split; vm_compute; reflexivity. Qed.

(** [verify] accepts the token [login] handed out. *)
Example scenario_login_then_verify :
  let logged_in := (admin_login Sample.good_login Sample.empty_server).2 in
  let check := Request {[ "Authorization" := "Bearer Zm9vYmFyYmF6cXV4" ]} "203.0.113.7" None in
  (verify_token check logged_in).1 = Ok (jsonify [("status", JStr "success")]).
Proof. vm_compute. reflexivity. Qed.

Example split_bearer : split "Bearer " "Bearer abc" = [""; "abc"].
Proof. reflexivity. Qed.

Example split_comma : split "," "10.0.0.1, 10.0.0.2" = ["10.0.0.1"; " 10.0.0.2"].
Proof. reflexivity. Qed.

Example py_eq_true_one : py_eq (JBool true) (JInt 1) = true.
Proof. reflexivity. Qed.

Example py_eq_str_null : py_eq (JStr "secret") JNull = false.
Proof. reflexivity. Qed.

(** * Worked examples for the rest of the program *)

#[local] Existing Instance Cases.printer.

(** Revoking the live token empties the map; revoking an unknown one does
    nothing. *)
Lemma X1_revoke_token_removes_witness :
  active_tokens (revoke_token "Zm9vYmFyYmF6cXV4" Cases.logged_in).2 !! "Zm9vYmFyYmF6cXV4" = None /\
  (revoke_token "unknown" Cases.logged_in).2 = Cases.logged_in.
Proof.
  split.
  - destruct (X1_revoke_token_removes "Zm9vYmFyYmF6cXV4" Cases.logged_in) as (_ & -> & _).
    reflexivity.
  - apply (X1_revoke_token_removes "unknown" Cases.logged_in). reflexivity.
Defined.

(** The live token verifies; a request without header does not. *)
Lemma X2_verify_token_answers_witness :
  (verify_token (Cases.with_token "Zm9vYmFyYmF6cXV4") Cases.logged_in).1 = Ok ok_response /\
  verify_token Sample.add_wiki Cases.logged_in = (Ok no_token_response, Cases.logged_in).
Proof.
  pose proof (X2_verify_token_answers (Cases.with_token "Zm9vYmFyYmF6cXV4") Cases.logged_in)
    as Hcarried.
  pose proof (X2_verify_token_answers Sample.add_wiki Cases.logged_in) as Hbare.
  cbv zeta in Hcarried, Hbare. split.
  - destruct Hcarried as (_ & _ & Htoken).
    destruct (Htoken "Zm9vYmFyYmF6cXV4" eq_refl eq_refl) as (Hlive & _).
    rewrite (Hlive 86400000000 eq_refl eq_refl). reflexivity.
  - destruct Hbare as (_ & Hnone & _). apply Hnone. reflexivity.
Defined.

(** Logging out with the live token removes it. *)
Lemma X3_admin_logout_revokes_witness :
  let req := Cases.with_token "Zm9vYmFyYmF6cXV4" in
  let out := admin_logout req Cases.logged_in in
  out.1 = Ok ok_response /\
  active_tokens out.2 = delete "Zm9vYmFyYmF6cXV4" (active_tokens Cases.logged_in) /\
  verify_token req out.2 = (Ok invalid_token_response, out.2).
Proof.
  intros req out.
  pose proof (X3_admin_logout_revokes req Cases.logged_in) as Hlogout.
  cbv zeta in Hlogout. destruct Hlogout as (Hanswer & _ & Htoken).
  destruct (Htoken "Zm9vYmFyYmF6cXV4" eq_refl eq_refl) as (Hgone & _ & Hverify).
  split; [exact Hanswer|]. split; [exact Hgone|exact Hverify].
Defined.

(** [admin] / [secret] logs in and the token verifies two seconds later. *)
Lemma X4_login_then_verify_witness :
  let out := admin_login Sample.good_login Sample.empty_server in
  out.1 = Ok (login_success "Zm9vYmFyYmF6cXV4") /\
  (verify_token (Cases.with_token "Zm9vYmFyYmF6cXV4") out.2).1 = Ok ok_response.
Proof.
  intros out.
  pose proof (X4_login_then_verify Sample.good_login (Cases.with_token "Zm9vYmFyYmF6cXV4")
                Sample.empty_server
                (list_to_map [("username", JStr "admin"); ("password", JStr "secret")])
                (list_to_map [("username", JStr "admin"); ("password", JStr "secret")])
                eq_refl eq_refl eq_refl eq_refl eq_refl) as Hround.
  cbv zeta in Hround. destruct Hround as (Hanswer & Hlive & _).
  split; [exact Hanswer|]. apply Hlive. reflexivity.
Defined.

(** The digest of [secret], sent as the password, logs in. *)
Lemma X5_stored_digest_logs_in_witness :
  login_granted (admin_login Cases.digest_login Cases.hashed_server) Cases.hashed_server.
Proof.
  apply (X5_stored_digest_logs_in Cases.digest_login Cases.hashed_server
           (list_to_map
              [("username", JStr "admin");
               ("password",
                JStr "2bb80d537b1da3e38bd30361aa855686bde0eacd7162fef6a25fe97bf527a25b")])
           "admin" "secret"); reflexivity.
Defined.

(** No body, and a body that is a list. *)
Lemma X7_malformed_body_raises_witness :
  let bare := Cases.with_token "x" in
  let listed_body := Request ∅ "203.0.113.7" (Some (JList [JStr "Wiki"])) in
  add_library_link bare Sample.empty_server = (Raise BadRequest, Sample.empty_server) /\
  admin_login listed_body Sample.empty_server = (Raise AttributeError, Sample.empty_server).
Proof.
  intros bare listed_body. split.
  - apply (proj1 (X7_malformed_body_raises bare Sample.empty_server)). reflexivity.
  - apply (proj2 (X7_malformed_body_raises listed_body Sample.empty_server)
             (JList [JStr "Wiki"])); reflexivity.
Defined.

(** An admin file holding [[1]], and one holding [0]. *)
Lemma X6_odd_admin_file_witness :
  let listed_admin := Sample.server [] (JList [JInt 1]) Sample.clk in
  let zero_admin := Sample.server [] (JInt 0) Sample.clk in
  admin_login Sample.good_login listed_admin = (Raise AttributeError, listed_admin) /\
  (admin_login Sample.good_login zero_admin).1 = Ok login_failure.
Proof.
  intros listed_admin zero_admin. split.
  - apply (X6_odd_admin_file Sample.good_login listed_admin
             (list_to_map [("username", JStr "admin"); ("password", JStr "secret")])
             (JList [JInt 1])); reflexivity.
  - apply (X6_odd_admin_file Sample.good_login zero_admin
             (list_to_map [("username", JStr "admin"); ("password", JStr "secret")])
             (JInt 0)); reflexivity.
Defined.

(** Behind a proxy header the peer address is not the one recorded. *)
Lemma X8_log_ip_address_witness :
  (log_ip Cases.proxied Sample.empty_server).1 =
    Ok (jsonify [("status", JStr "success"); ("ip", JStr "198.51.100.4")]).
Proof.
  destruct (X8_log_ip_address Cases.proxied Sample.empty_server)
    as (ip & Hanswer & _ & _ & Hforwarded & _).
  rewrite Hanswer.
  rewrite (Hforwarded "198.51.100.4" eq_refl ltac:(discriminate) eq_refl).
  reflexivity.
Defined.

(** The logs can be read with a made-up token. *)
Lemma X10_state_routes_ignore_auth_witness :
  let hs : gmap string string := {[ "Authorization" := "Bearer made-up" ]} in
  (dispatch GET_api_admin_logs (with_headers hs Sample.add_wiki) Cases.logged_in).1 =
  (dispatch GET_api_admin_logs Sample.add_wiki Sample.empty_server).1.
Proof.
  intros hs.
  destruct (X10_state_routes_ignore_auth GET_api_admin_logs Sample.add_wiki
              Sample.empty_server hs {[ "Zm9vYmFyYmF6cXV4" := 86400000000 ]} eq_refl)
    as [Hsame _].
  exact (f_equal fst Hsame).
Defined.

(** A logout adds no token. *)
Lemma X11_tokens_only_from_login_witness :
  active_tokens (dispatch POST_api_admin_logout (Cases.with_token "x") Cases.logged_in).2
    ⊆ active_tokens Cases.logged_in.
Proof.
  apply (X11_tokens_only_from_login POST_api_admin_logout). reflexivity.
Defined.

(** A login leaves the library and the files alone. *)
Lemma X12_other_routes_keep_store_witness :
  library_links (dispatch POST_api_admin_login Sample.good_login Sample.empty_server).2 =
    library_links Sample.empty_server /\
  files (dispatch POST_api_admin_login Sample.good_login Sample.empty_server).2 =
    files Sample.empty_server.
Proof.
  apply (X12_other_routes_keep_store POST_api_admin_login). reflexivity.
Defined.


(** Deleting Wiki from [Wiki, News, Old]: News is now at index 0. *)
Lemma X14_delete_shifts_later_links_witness :
  let l := [Sample.wiki; Sample.news; Sample.legacy] in
  let out := delete_library_link 0 (Sample.server l Sample.admin_record Sample.clk) in
  exists l', library_links out.2 = JList l' /\ l' !! 0%nat = Some Sample.news.
Proof.
  intros l out.
  destruct (X14_delete_shifts_later_links (Sample.server l Sample.admin_record Sample.clk)
              l 0 Sample.wiki eq_refl eq_refl)
    as (l' & Hlinks & _ & _ & _ & Hlater & _).
  exists l'. split; [exact Hlinks|]. exact (eq_trans (Hlater 0%nat (le_n 0)) eq_refl).
Defined.

(** Pinning a link that has a name. *)
Lemma X16_toggle_pin_reports_new_state_witness :
  let l := [Sample.wiki; Sample.news] in
  let out := toggle_pin 1 (Sample.server l Sample.admin_record Sample.clk) in
  server_logs out.2 = ["[2024-05-01 12:00:00] Link pinned: News"].
Proof.
  intros l out.
  destruct (X16_toggle_pin_reports_new_state
              (Sample.server l Sample.admin_record Sample.clk) l 1
              (list_to_map [("name", JStr "News"); ("url", JStr "http://news");
                            ("pinned", JBool false)])
              (JStr "News") eq_refl eq_refl eq_refl) as [_ Hlog].
  exact (eq_trans Hlog eq_refl).
Defined.

(** A link without a name is deleted, and the request fails. *)
Lemma X17_nameless_link_fails_late_witness :
  let w := Sample.server [Cases.nameless] Sample.admin_record Sample.clk in
  (delete_library_link 0 w).1 = Raise KeyError /\
  library_links (delete_library_link 0 w).2 = JList [] /\
  (toggle_pin 0 w).1 = Raise KeyError.
Proof.
  intros w.
  destruct (X17_nameless_link_fails_late w [Cases.nameless] 0
              (list_to_map [("url", JStr "http://x"); ("pinned", JBool true)])
              eq_refl eq_refl eq_refl)
    as [(Hraise & Hlinks & _) (Htoggle & _)].
  split; [exact Hraise|]. split; [exact Hlinks|exact Htoggle].
Defined.

(** One string among the links breaks the pinned listing. *)
Lemma X18_get_pinned_breaks_witness :
  let w := Sample.server [Sample.wiki; JStr "oops"] Sample.admin_record Sample.clk in
  get_pinned w = (Raise AttributeError, w).
Proof.
  intros w. apply (X18_get_pinned_breaks w [Sample.wiki; JStr "oops"]); reflexivity.
Defined.

(** After two posts and two pins, the first log line is on the console. *)
Lemma X19_log_lines_were_printed_witness :
  let line := "[2024-05-01 12:00:00] Added to library: Wiki - http://wiki" in
  reachable Sample.wiki_twice /\ line ∈ console Sample.wiki_twice.
Proof.
  intros line.
  assert (Hreach : reachable Sample.wiki_twice).
  { unfold Sample.wiki_twice. cbv zeta. do 4 apply reach_request. apply reach_start. }
  split; [exact Hreach|].
  apply (X19_log_lines_were_printed Sample.wiki_twice Hreach).
  apply list_elem_of_In. vm_compute. left. reflexivity.
Defined.

(** Index 5 of a one-element library. *)
Lemma X15_index_out_of_range_witness :
  let w := Sample.server [Sample.wiki] Sample.admin_record Sample.clk in
  delete_library_link 5 w = (Ok invalid_index_response, w) /\
  toggle_pin 5 w = (Ok invalid_index_response, w).
Proof.
  intros w. apply (X15_index_out_of_range w [Sample.wiki] 5 eq_refl). cbn. lia.
Defined.

(** ["  admin "], ["secret"] and [" Y"] are typed. *)
Lemma X20_main_writes_when_confirmed_witness :
  (Utility.main Cases.typing).1 = Utility.Returned /\
  Utility.disk (Utility.main Cases.typing).2 =
    {[ ADMIN_FILE := JsonText (hashed_admin_data "admin" "secret") ]}.
Proof.
  destruct (X20_main_writes_when_confirmed Cases.typing "  admin " "secret" " Y" [] eq_refl)
    as (Hreturned & Hwritten & _).
  split; [exact Hreturned|]. rewrite Hwritten; [reflexivity|].
  split; [discriminate|]. split; [discriminate|]. right. reflexivity.
Defined.

(** After that typing, the digest logs in. *)
Lemma X22_utility_then_login_witness :
  login_granted (admin_login Cases.digest_login Cases.installed) Cases.installed.
Proof.
  refine (proj2 (X22_utility_then_login Cases.typing Cases.installed Cases.digest_login
                   "  admin " "secret" " Y" [] _ eq_refl _ _ _ eq_refl eq_refl eq_refl)
            eq_refl).
  - discriminate.
  - discriminate.
  - right. reflexivity.
Defined.
